(** * vfx: video frame extraction, a shallow embedding of [vfx.py]

    The script drives two external programs (ffprobe, ffmpeg) through
    [subprocess.run], consults the file system through [os.path.exists] and
    [os.makedirs], prints progress lines and reads prompt answers.  All of
    this is modelled by explicit state passing over a [world] that carries
    the set of existing paths, the pending prompt answers and the trace of
    externally visible events, together with an error layer for Python
    exceptions.

    Modelling conventions:
    - Python [int] is [Z]; Python [str] is [string], the UTF-8 bytes of
      the text.
    - Python [float] is the binary64 type [float] of Rocq's primitive
      floats, with the same rounding to nearest even.  An [int] operand of
      mixed arithmetic is converted first, which raises [OverflowError]
      when it is too large; division by a zero count raises
      [ZeroDivisionError].
    - What the external programs answer is taken from an environment
      [env]: the exit status of a command line, and the value of
      [float(result.stdout)] for a probe command line ([None] when [float]
      raises [ValueError]).  The decimal rendering of a float inside an
      f-string is a field of the environment as well, and so is what
      [os.listdir] and [os.walk] find.
    - The two programs can be started and directories can be created
      whenever the script asks for it; what a child process or argparse
      writes to the terminal by itself is not part of the trace.
    - [os.path] is the POSIX flavour. *)

From Stdlib Require Import ZArith QArith Qround Floats Ascii String List Lia.
From stdpp Require Import base tactics option list sets gmap strings pretty.

Local Open Scope Z_scope.

(** ** Strings and paths *)

Module Str.

(** [s[i:]] for [0 <= i]. *)
Fixpoint drop (i : nat) (s : string) : string :=
  match i, s with
  | O, _ => s
  | S _, EmptyString => EmptyString
  | S i', String _ s' => drop i' s'
  end.

(** [s[:i]] for [0 <= i]. *)
Fixpoint take (i : nat) (s : string) : string :=
  match i, s with
  | O, _ => EmptyString
  | S _, EmptyString => EmptyString
  | S i', String a s' => String a (take i' s')
  end.

(** [s.rfind(c)], with [None] for Python's [-1]. *)
Fixpoint rfind (c : ascii) (s : string) : option nat :=
  match s with
  | EmptyString => None
  | String a s' =>
      match rfind c s' with
      | Some i => Some (S i)
      | None => if Ascii.eqb a c then Some O else None
      end
  end.

(** [s.rstrip(c)] for a one-character argument. *)
Fixpoint rstrip (c : ascii) (s : string) : string :=
  match s with
  | EmptyString => EmptyString
  | String a s' =>
      match rstrip c s' with
      | EmptyString => if Ascii.eqb a c then EmptyString else String a EmptyString
      | r => String a r
      end
  end.

Definition startswith (s p : string) : bool := String.prefix p s.

Definition endswith (s suf : string) : bool :=
  (String.length suf <=? String.length s)%nat
  && String.eqb (drop (String.length s - String.length suf) s) suf.

(** [s.endswith((t1, ..., tn))] *)
Definition endswith_any (s : string) (sufs : list string) : bool :=
  existsb (endswith s) sufs.

(** The characters for which [str.isspace()] holds, by the length of their
    UTF-8 encoding: U+0009..U+000D, U+001C..U+001F and U+0020; U+0085 and
    U+00A0; U+1680, U+2000..U+200A, U+2028, U+2029, U+202F, U+205F and
    U+3000. *)
Definition is_space1 (a : ascii) : bool :=
  let n := nat_of_ascii a in
  ((9 <=? n)%nat && (n <=? 13)%nat) || ((28 <=? n)%nat && (n <=? 32)%nat).

Definition is_space2 (a b : ascii) : bool :=
  let m := nat_of_ascii a in
  let n := nat_of_ascii b in
  (m =? 194)%nat && ((n =? 133)%nat || (n =? 160)%nat).

Definition is_space3 (a b c : ascii) : bool :=
  let l := nat_of_ascii a in
  let m := nat_of_ascii b in
  let n := nat_of_ascii c in
  ((l =? 225)%nat && (m =? 154)%nat && (n =? 128)%nat)
  || ((l =? 226)%nat && (m =? 128)%nat
      && (((128 <=? n)%nat && (n <=? 138)%nat)
          || (n =? 168)%nat || (n =? 169)%nat || (n =? 175)%nat))
  || ((l =? 226)%nat && (m =? 129)%nat && (n =? 159)%nat)
  || ((l =? 227)%nat && (m =? 128)%nat && (n =? 128)%nat).

(** The string is one such character. *)
Definition is_space (s : string) : bool :=
  match s with
  | String a EmptyString => is_space1 a
  | String a (String b EmptyString) => is_space2 a b
  | String a (String b (String c EmptyString)) => is_space3 a b c
  | _ => false
  end.

(** [s.lstrip()] *)
Fixpoint lstrip (s : string) : string :=
  match s with
  | EmptyString => EmptyString
  | String a s1 =>
      if is_space1 a then lstrip s1
      else
        match s1 with
        | String b s2 =>
            if is_space2 a b then lstrip s2
            else
              match s2 with
              | String c s3 => if is_space3 a b c then lstrip s3 else s
              | EmptyString => s
              end
        | EmptyString => s
        end
  end.

(** [s.rstrip()] *)
Fixpoint rstrip_space (s : string) : string :=
  match s with
  | EmptyString => EmptyString
  | String a s' =>
      let r := String a (rstrip_space s') in
      if is_space r then EmptyString else r
  end.

(** [s.strip()] *)
Definition strip (s : string) : string := rstrip_space (lstrip s).

Definition lower_ascii (a : ascii) : ascii :=
  let n := nat_of_ascii a in
  if ((65 <=? n)%nat && (n <=? 90)%nat) then ascii_of_nat (n + 32) else a.

(** [s.lower()] as far as the script can tell: the ASCII letters are
    lower-cased.  The result is only ever compared with ['n'] and ['a'], and
    no other character lower-cases to one of these two. *)
Fixpoint lower (s : string) : string :=
  match s with
  | EmptyString => EmptyString
  | String a s' => String (lower_ascii a) (lower s')
  end.

(** [f"{z}"] for an [int]. *)
Definition fmt_int (z : Z) : string := pretty z.

Fixpoint zeros (n : nat) : string :=
  match n with
  | O => EmptyString
  | S n' => String "0" (zeros n')
  end.

(** [f"{z:03d}"]: sign-aware zero padding to width 3. *)
Definition fmt_03d (z : Z) : string :=
  if (z <? 0)%Z then
    let digits := pretty (- z)%Z in
    "-" +:+ zeros (2 - String.length digits) +:+ digits
  else
    let digits := pretty z in
    zeros (3 - String.length digits) +:+ digits.

End Str.

(** [os.path], POSIX flavour. *)
Module os_path.

Definition sep : ascii := "/"%char.
Definition extsep : ascii := "."%char.

(** Python's [p.rfind(c) + 1]. *)
Definition rfind1 (c : ascii) (p : string) : nat :=
  match Str.rfind c p with
  | Some i => S i
  | None => O
  end.

Definition basename (p : string) : string :=
  Str.drop (rfind1 sep p) p.

Definition dirname (p : string) : string :=
  let head := Str.take (rfind1 sep p) p in
  match Str.rstrip sep head with
  | EmptyString => head          (* empty, or nothing but separators *)
  | stripped => stripped
  end.

Fixpoint all_dots (s : string) : bool :=
  match s with
  | EmptyString => true
  | String a s' => Ascii.eqb a extsep && all_dots s'
  end.

(** [os.path.splitext(p)]: the extension starts at the last dot of the
    last component, leading dots of that component not counting. *)
Definition splitext (p : string) : string * string :=
  let sep1 := rfind1 sep p in
  match Str.rfind extsep p with
  | Some dot =>
      if (sep1 <=? dot)%nat
         && negb (all_dots (Str.take (dot - sep1) (Str.drop sep1 p)))
      then (Str.take dot p, Str.drop dot p)
      else (p, EmptyString)
  | None => (p, EmptyString)
  end.

(** [os.path.join(a, b)] *)
Definition join (a b : string) : string :=
  if Str.startswith b "/" then b
  else if String.eqb a "" || Str.endswith a "/" then a +:+ b
  else a +:+ "/" +:+ b.

End os_path.

(** ** Effects: the world, exceptions and the monad of the script *)

(** Where a child process's stream goes ([None], [subprocess.DEVNULL],
    [subprocess.PIPE] in the source). *)
Inductive redirect := Inherit | DEVNULL | PIPE.

(** Externally visible actions, in the order they happen. *)
Inductive event :=
| Makedirs (path : string)
| Run (cmd : list string) (check : bool) (stdout stderr : redirect)
| Print (msg : string)
| Input (prompt : string).

(** The Python exceptions that can arise; [SystemExit] carries the exit
    status. *)
Inductive exn :=
| ValueError
| ZeroDivisionError
| OverflowError
| OSError
| CalledProcessError
| EOFError
| SystemExit (status : Z).

Global Instance exn_eq_dec : EqDecision exn.
Proof. solve_decision. Defined.

Inductive result (A : Type) :=
| Ok (a : A)
| Raise (e : exn)
| Diverge.
Arguments Ok {A} a.
Arguments Raise {A} e.
Arguments Diverge {A}.

Record world := World {
  fs : gset string;          (* the paths for which os.path.exists holds *)
  stdin : list string;       (* the lines input() will read *)
  trace : list event         (* what has happened so far, oldest first *)
}.

(** What lies outside the script. *)
Record env := Env {
  returncode : list string -> Z;            (* exit status of a command line *)
  float_stdout : list string -> option float; (* float(result.stdout) of a probe *)
  repr_float : float -> string;             (* f"{x}" for a float x *)
  os_listdir : string -> option (list string);
    (* the names in a folder; None when os.listdir raises an OSError: the
       path is missing, is a file, may not be read *)
  os_walk : string -> list (string * list string)
    (* (root, files) of every directory below and including the folder;
       os.walk passes over what it cannot list, so that a missing path or
       a file gives the empty walk *)
}.

Definition M (A : Type) : Type := world -> result A * world.

Definition ret {A} (a : A) : M A := fun w => (Ok a, w).

Definition bind {A B} (m : M A) (k : A -> M B) : M B :=
  fun w =>
    match m w with
    | (Ok a, w') => k a w'
    | (Raise e, w') => (Raise e, w')
    | (Diverge, w') => (Diverge, w')
    end.

Definition raise {A} (e : exn) : M A := fun w => (Raise e, w).

Definition diverge {A} : M A := fun w => (Diverge, w).

Declare Scope vfx_scope.
Delimit Scope vfx_scope with vfx.
Notation "'do' x <- m ; k" := (bind m (fun x => k))
  (at level 10, x name, m at level 100, k at level 200) : vfx_scope.
Notation "m ;; k" := (bind m (fun _ => k))
  (at level 100, k at level 200, right associativity) : vfx_scope.
Local Open Scope vfx_scope.

(** [try: body  except exc: handler] *)
Definition try_except {A} (body : M A) (exc : exn) (handler : M A) : M A :=
  fun w =>
    match body w with
    | (Raise e, w') => if decide (e = exc) then handler w' else (Raise e, w')
    | r => r
    end.

(** [for x in l: body x] *)
Fixpoint for_each {A} (l : list A) (body : A -> M unit) : M unit :=
  match l with
  | [] => ret tt
  | x :: l' => body x ;; for_each l' body
  end.

(** [range(n)] *)
Definition range (n : Z) : list Z := map Z.of_nat (seq 0 (Z.to_nat n)).

Definition emit (e : event) : M unit :=
  fun w => (Ok tt, World (fs w) (stdin w) (trace w ++ [e])).

Definition print (msg : string) : M unit := emit (Print msg).

(** [input(prompt)] *)
Definition input (prompt : string) : M string :=
  fun w =>
    match stdin w with
    | [] => (Raise EOFError, World (fs w) [] (trace w ++ [Input prompt]))
    | line :: rest => (Ok line, World (fs w) rest (trace w ++ [Input prompt]))
    end.

Definition os_path_exists (p : string) : M bool :=
  fun w => (Ok (bool_decide (p ∈ fs w)), w).

(** [os.makedirs(p)] on a path that does not exist; of the directories it
    creates only [p] itself is ever tested by the script. *)
Definition os_makedirs (p : string) : M unit :=
  fun w => (Ok tt, World ({[p]} ∪ fs w) (stdin w) (trace w ++ [Makedirs p])).

(** The binary64 number nearest to an integer, ties to even. *)
Definition to_float (n : Z) : float :=
  SF2Prim (binary_normalize prec emax n 0 false).

(** The least magnitude that rounds beyond the largest float: halfway
    between [2^1024 - 2^971] and [2^1024]. *)
Definition float_limit : Z := 2 ^ 1024 - 2 ^ 970.

(** The conversion of an [int] operand in mixed arithmetic: Python raises
    [OverflowError] (int too large to convert to float) from this magnitude
    on. *)
Definition float_of_int (n : Z) : M float :=
  if (Z.abs n <? float_limit)%Z then ret (to_float n)
  else raise OverflowError.

(** [duration / frame_count], a float by an int: the int is converted, then
    a zero divisor is refused. *)
Definition float_div_int (x : float) (n : Z) : M float :=
  do y <- float_of_int n;
  if (n =? 0)%Z then raise ZeroDivisionError
  else ret (PrimFloat.div x y).

(** [i * interval], an int by a float. *)
Definition int_mul_float (i : Z) (x : float) : M float :=
  do y <- float_of_int i;
  ret (PrimFloat.mul y x).

(** The process exit status a run ends with: a normal return and
    [sys.exit()] give 0, an uncaught exception gives 1. *)
Definition exit_status {A} (r : result A) : option Z :=
  match r with
  | Ok _ => Some 0
  | Raise (SystemExit status) => Some status
  | Raise _ => Some 1
  | Diverge => None
  end.

(** ** The script *)

Definition help_text : string :=
"
    Simple video frame extraction Python tool v 1.0.
    Syntax: 
    vfx [-R] [-S] [-I] [-N x] [-T x] [-X x] [-Y x] [-P] [-D] [-H] [source_file | source_path]
    -R (recursive): All files in the current or specified directory and subdirectories are processed.
    -S (silent mode): No text output shown.
    -I (info): Only progress is shown, no diagnostic messages from ffmpeg.
    -N x (number): For each specified video file, x evenly spaced video frames are extracted. If ‘0’ is specified all frames are extracted.
    -T x (time): For each x seconds, a frame is extracted. If ‘0’ is specified all frames are extracted.
    -X x (width): Set the desired width in pixels of the extracted images. If -Y is not also used, the height is set automatically to maintain aspect ratio.
    -Y x (height): Set the desired height in pixels of the extracted images. If -X is not also used, the height is set automatically to maintain aspect ratio.
    -P (prompt): For each found video file answer y (yes), n (no) or (a) abort, to process the file or not, or to abort the process all together.
    -D (directory): All extracted files are saved together with the video file. Default is to create a new folder for the extracted frames.
    -H: Show this help text.
    ".

Section Script.

Variable E : env.

(** [subprocess.run(cmd, check=..., stdout=..., stderr=...)]: the call is
    recorded, and with [check=True] a non-zero exit status raises
    [CalledProcessError]. *)
Definition subprocess_run (cmd : list string) (check : bool)
    (stdout stderr : redirect) : M Z :=
  emit (Run cmd check stdout stderr) ;;
  let rc := returncode E cmd in
  if check && negb (rc =? 0)%Z then raise CalledProcessError else ret rc.

Definition print_help : M unit := print help_text.

Definition ffmpeg_missing : string :=
  "ffmpeg is required to run this script. Download ffmpeg from here: https://ffmpeg.org. See ffmpeg documentation for installation information".

(** The script also catches [FileNotFoundError] here; a missing program is
    modelled as a non-zero exit status. *)
Definition check_ffmpeg : M unit :=
  try_except
    (subprocess_run ["ffmpeg"; "-version"] true PIPE PIPE ;; ret tt)
    CalledProcessError
    (print ffmpeg_missing ;; raise (SystemExit 1)).

Definition ffprobe_command (video_file : string) : list string :=
  ["ffprobe"; "-v"; "error"; "-select_streams"; "v:0"; "-show_entries";
   "stream=duration"; "-of"; "default=noprint_wrappers=1:nokey=1"; video_file].

(** The two lines
    [result = subprocess.run(['ffprobe', ...], stdout=PIPE, stderr=PIPE)]
    [duration = float(result.stdout)]
    shared by both extractors. *)
Definition probe_duration (video_file : string) : M float :=
  subprocess_run (ffprobe_command video_file) false PIPE PIPE ;;
  match float_stdout E (ffprobe_command video_file) with
  | Some duration => ret duration
  | None => raise ValueError
  end.

(** The [if width > 0 and height > 0 ... elif ... elif ...] block that both
    extractors append to [vf_args]. *)
Definition scale_args (width height : Z) : string :=
  if (0 <? width)%Z && (0 <? height)%Z then
    ",scale=" +:+ Str.fmt_int width +:+ ":" +:+ Str.fmt_int height
  else if (0 <? width)%Z then
    ",scale=" +:+ Str.fmt_int width +:+ ":-1"
  else if (0 <? height)%Z then
    ",scale=-1:" +:+ Str.fmt_int height
  else "".

Definition ensure_dir (output_dir : string) : M unit :=
  do present <- os_path_exists output_dir;
  if present then ret tt else os_makedirs output_dir.

Definition base_name_of (video_file : string) : string :=
  fst (os_path.splitext (os_path.basename video_file)).

(** *** extract_frames_fallback *)

Definition fallback_vf_args (timestamp : float) (width height : Z) : string :=
  ("select='gte(t\," +:+ repr_float E timestamp +:+ ")',setpts=PTS-STARTPTS")
  +:+ scale_args width height.

Definition fallback_command (video_file output_dir : string)
    (width height : Z) (i : Z) (timestamp : float) : list string :=
  let base_name := base_name_of video_file in
  let output_file :=
    os_path.join output_dir (base_name +:+ "_" +:+ Str.fmt_03d (i + 1) +:+ ".jpg") in
  let vf_args := fallback_vf_args timestamp width height in
  ["ffmpeg"; "-i"; video_file; "-vf"; vf_args; "-vframes"; "1"; "-q:v"; "2";
   output_file].

(** The body of [for i in range(frame_count)]. *)
Definition fallback_frame (video_file output_dir : string)
    (silent info : bool) (width height : Z) (interval : float) (i : Z) : M unit :=
  do timestamp <- int_mul_float i interval;
  let ffmpeg_command :=
    fallback_command video_file output_dir width height i timestamp in
  if silent || info then
    subprocess_run ffmpeg_command false DEVNULL (if silent then DEVNULL else PIPE) ;;
    ret tt
  else
    subprocess_run ffmpeg_command false Inherit Inherit ;; ret tt.

Definition extract_frames_fallback (video_file output_dir : string)
    (frame_count : Z) (silent info : bool) (width height : Z) : M unit :=
  ensure_dir output_dir ;;
  do duration <- probe_duration video_file;
  do interval <- float_div_int duration frame_count;
  for_each (range frame_count)
    (fallback_frame video_file output_dir silent info width height interval).

(** *** extract_frames *)

Definition fast_sampling (video_file : string) (frame_count time_interval : Z)
    : M string :=
  if (0 <? time_interval)%Z then
    ret ("fps=1/" +:+ Str.fmt_int time_interval)
  else
    do duration <- probe_duration video_file;
    do interval <- float_div_int duration frame_count;
    ret ("fps=1/" +:+ repr_float E interval).

Definition fast_command (video_file output_dir vf_args : string) : list string :=
  let base_name := base_name_of video_file in
  let output_pattern := os_path.join output_dir (base_name +:+ "_%03d.jpg") in
  ["ffmpeg"; "-i"; video_file; "-vf"; vf_args; "-pix_fmt"; "yuv420p";
   "-q:v"; "2"; output_pattern].

Definition fast_notice (video_file : string) : string :=
  "Fast method failed for " +:+ video_file +:+ ". Falling back to slower method.".

Definition extract_frames (video_file output_dir : string)
    (frame_count time_interval : Z) (silent info : bool) (width height : Z)
    : M unit :=
  ensure_dir output_dir ;;
  try_except
    (do sampling <- fast_sampling video_file frame_count time_interval;
     let vf_args := sampling +:+ scale_args width height in
     let ffmpeg_command := fast_command video_file output_dir vf_args in
     if silent then
       subprocess_run ffmpeg_command true DEVNULL DEVNULL ;; ret tt
     else if info then
       subprocess_run ffmpeg_command true DEVNULL PIPE ;; ret tt
     else
       subprocess_run ffmpeg_command true Inherit Inherit ;; ret tt)
    CalledProcessError
    ((if negb silent && negb info then print (fast_notice video_file) else ret tt) ;;
     extract_frames_fallback video_file output_dir frame_count silent info
       width height).

(** *** process_file *)

(** [while os.path.exists(unique_folder_name): ...], unrolled at most
    [fuel] times past the first test. *)
Fixpoint unique_folder_loop (fuel : nat) (output_dir : string) (counter : Z)
    (unique_folder_name : string) {struct fuel} : M string :=
  do taken <- os_path_exists unique_folder_name;
  if taken then
    match fuel with
    | O => diverge
    | S fuel' =>
        unique_folder_loop fuel' output_dir (counter + 1)
          (output_dir +:+ "_" +:+ Str.fmt_int counter)
    end
  else ret unique_folder_name.

(** [os.path.join(os.path.dirname(video_file), base_name + '_frames')] *)
Definition frames_dir (video_file : string) : string :=
  let base_name := base_name_of video_file in
  os_path.join (os_path.dirname video_file) (base_name +:+ "_frames").

(** The [else] branch of [if same_dir]; the loop is given one round per
    existing path, which the theorems below show to be enough. *)
Definition allocate_output_dir (video_file : string) : M string :=
  let output_dir := frames_dir video_file in
  fun w => unique_folder_loop (size (fs w)) output_dir 1 output_dir w.

Definition video_extensions : list string := [".mp4"; ".mov"; ".avi"; ".mkv"].

Definition process_file (video_file : string) (silent info : bool)
    (frame_count time_interval : Z) (prompt same_dir : bool)
    (width height : Z) : M unit :=
  if Str.endswith_any video_file video_extensions then
    do proceed <-
      (if prompt then
         do answer <- input ("Process " +:+ video_file +:+ "? (y/n/a) ");
         let response := Str.lower (Str.strip answer) in
         if String.eqb response "n" then ret false
         else if String.eqb response "a" then
           print "Process aborted." ;; raise (SystemExit 0)
         else ret true
       else ret true);
    if proceed : bool then
      (if negb silent && info then print ("Processing: " +:+ video_file)
       else ret tt) ;;
      do output_dir <-
        (if same_dir then ret (os_path.dirname video_file)
         else allocate_output_dir video_file);
      extract_frames video_file output_dir frame_count time_interval
        silent info width height
    else ret tt
  else ret tt.

(** *** process_folder *)

Definition process_folder (folder : string) (recursive silent info : bool)
    (frame_count time_interval : Z) (prompt same_dir : bool)
    (width height : Z) : M unit :=
  if recursive then
    for_each (os_walk E folder) (fun '(root, files) =>
      for_each files (fun filename =>
        process_file (os_path.join root filename) silent info frame_count
          time_interval prompt same_dir width height))
  else
    match os_listdir E folder with
    | Some names =>
        for_each names (fun filename =>
          process_file (os_path.join folder filename) silent info frame_count
            time_interval prompt same_dir width height)
    | None => raise OSError
    end.

(** *** main *)

(** The command line as the user typed it: a valued switch is [None]
    when it was not given. *)
Record cli := Cli {
  cli_source : option string;
  cli_R : bool; cli_S : bool; cli_I : bool;
  cli_N : option Z; cli_T : option Z; cli_X : option Z; cli_Y : option Z;
  cli_P : bool; cli_D : bool; cli_H : bool
}.

(** The namespace [parser.parse_args()] returns. *)
Record args := Args {
  args_source : string;
  args_R : bool; args_S : bool; args_I : bool;
  args_N : Z; args_T : Z; args_X : Z; args_Y : Z;
  args_P : bool; args_D : bool; args_help : bool
}.

(** What [parser.parse_args()] makes of the words of the command line:
    argparse either accepts them, or rejects them (an unknown switch, a
    value that is no integer, a second source), prints its usage message
    and leaves the script with status 2. *)
Inductive argv :=
| Rejected
| Accepted (c : cli).

(** The [add_argument] declarations with their defaults, for an accepted
    command line. *)
Definition parse_args (c : cli) : args :=
  {| args_source := default "." (cli_source c);
     args_R := cli_R c; args_S := cli_S c; args_I := cli_I c;
     args_N := default 16 (cli_N c);
     args_T := default 0 (cli_T c);
     args_X := default 0 (cli_X c);
     args_Y := default 0 (cli_Y c);
     args_P := cli_P c; args_D := cli_D c; args_help := cli_H c |}.

Definition only_one_switch : string :=
  "Error: Only one of the switches -N or -T can be used at a time.".

(** The [isinstance(args.N, int)] test that follows the switch test never
    fires: [type=int] makes both values integers. *)
Definition main (line : argv) : M unit :=
  match line with
  | Rejected => raise (SystemExit 2)
  | Accepted c =>
      let a := parse_args c in
      check_ffmpeg ;;
      if args_help a then print_help
      else if negb (args_N a =? 16)%Z && negb (args_T a =? 0)%Z then
        print only_one_switch
      else
        process_folder (args_source a) (args_R a) (args_S a) (args_I a)
          (args_N a) (args_T a) (args_P a) (args_D a) (args_X a) (args_Y a)
  end.

End Script.

(** ** Reasoning about runs *)

(** The world after more events have been recorded. *)
Definition log (evs : list event) (w : world) : world :=
  World (fs w) (stdin w) (trace w ++ evs).

(** The world after [ensure_dir]. *)
Definition with_dir (output_dir : string) (w : world) : world :=
  if bool_decide (output_dir ∈ fs w) then w
  else World ({[output_dir]} ∪ fs w) (stdin w) (trace w ++ [Makedirs output_dir]).

(** The event the fallback records for index [i] and its timestamp. *)
Definition fallback_event (E : env) (video_file output_dir : string)
    (silent info : bool) (width height : Z) (i : Z) (timestamp : float) : event :=
  let cmd := fallback_command E video_file output_dir width height i timestamp in
  if silent || info then Run cmd false DEVNULL (if silent then DEVNULL else PIPE)
  else Run cmd false Inherit Inherit.

(** The event of the single fast invocation. *)
Definition fast_event (silent info : bool) (cmd : list string) : event :=
  if silent then Run cmd true DEVNULL DEVNULL
  else if info then Run cmd true DEVNULL PIPE
  else Run cmd true Inherit Inherit.

(** What is printed when the fast invocation has failed. *)
Definition notice (silent info : bool) (video_file : string) : list event :=
  if negb silent && negb info then [Print (fast_notice video_file)] else [].

Definition probe_event (video_file : string) : event :=
  Run (ffprobe_command video_file) false PIPE PIPE.

(** The integer converts to a float. *)
Definition converts (n : Z) : Prop := (Z.abs n < float_limit)%Z.

(** The timestamps the fallback visits for a probed duration: the values
    [timestamp = i * interval] of its loop, with
    [interval = duration / frame_count], each operation rounded as binary64
    does. *)
Definition fallback_timestamps (duration : float) (frame_count : Z) : list float :=
  map (fun i =>
         PrimFloat.mul (to_float i) (PrimFloat.div duration (to_float frame_count)))
      (range frame_count).

(** The float is a number of finite size: neither an infinity nor NaN. *)
Definition finite (x : float) : bool :=
  match Prim2SF x with
  | S754_zero _ | S754_finite _ _ _ => true
  | S754_infinity _ | S754_nan => false
  end.

(** Recognising the two kinds of ffmpeg command lines in a trace. *)
Definition is_fast_run (e : event) : bool :=
  match e with
  | Run cmd _ _ _ =>
      bool_decide (cmd !! 0%nat = Some "ffmpeg" ∧ cmd !! 5%nat = Some "-pix_fmt")
  | _ => false
  end.

Definition is_frame_run (e : event) : bool :=
  match e with
  | Run cmd _ _ _ =>
      bool_decide (cmd !! 0%nat = Some "ffmpeg" ∧ cmd !! 5%nat = Some "-vframes")
  | _ => false
  end.

Definition is_print (e : event) : bool :=
  match e with
  | Print _ => true
  | _ => false
  end.

(** Number of events of a kind. *)
Definition count (p : event -> bool) (evs : list event) : nat :=
  length (filter (fun e => p e = true) evs).

(** [m] only ever appends events that satisfy [P], whatever its outcome. *)
Definition appends {A} (P : event -> Prop) (m : M A) : Prop :=
  forall w, exists evs,
    trace (snd (m w)) = trace w ++ evs /\ Forall P evs.

(** [m], when it returns normally, returns a value that satisfies [Q]. *)
Definition returns {A} (Q : A -> Prop) (m : M A) : Prop :=
  forall w a w', m w = (Ok a, w') -> Q a.

(** The filter chain handed to ffmpeg with [-vf], if the event is such a
    call. *)
Definition vf_of (e : event) : option string :=
  match e with
  | Run cmd _ _ _ =>
      if bool_decide (cmd !! 0%nat = Some "ffmpeg" /\ cmd !! 3%nat = Some "-vf")
      then cmd !! 4%nat else None
  | _ => None
  end.

(** The sampling filters the two extractors write. *)
Definition is_sampling (sampling : string) : Prop :=
  Str.startswith sampling "fps=1/" = true \/
  Str.startswith sampling "select='gte(t\," = true.

(** A filter chain is a sampling filter followed by the scaling directive
    for [width] and [height], and by nothing else. *)
Definition sampling_then_scale (width height : Z) (e : event) : Prop :=
  forall vf_args, vf_of e = Some vf_args ->
    exists sampling,
      is_sampling sampling /\ vf_args = sampling +:+ scale_args width height.

(** The progress line of [process_file]. *)
Definition progress (silent info : bool) (video_file : string) : list event :=
  if negb silent && info then [Print ("Processing: " +:+ video_file)] else [].

(** The same environment with other exit statuses. *)
Definition with_returncode (rc : list string -> Z) (E : env) : env :=
  Env rc (float_stdout E) (repr_float E) (os_listdir E) (os_walk E).

(** The names the allocation loop tries, in order: the plain folder, then
    the folder with suffix [_1], [_2], ... *)
Definition candidate (output_dir : string) (k : nat) : string :=
  match k with
  | O => output_dir
  | S _ => output_dir +:+ "_" +:+ Str.fmt_int (Z.of_nat k)
  end.

(** Concrete environments and worlds for the examples. *)
Module Demo.

(** A rendering of floats that is good enough to tell timestamps apart:
    sign, mantissa and binary exponent. *)
Definition show (x : float) : string :=
  match Prim2SF x with
  | S754_zero s => if s then "-0" else "0"
  | S754_finite s m e =>
      (if s then "-" else "") +:+ pretty (Zpos m) +:+ "p" +:+ pretty e
  | S754_infinity s => if s then "-inf" else "inf"
  | S754_nan => "nan"
  end.

Definition ten : float := 10%float.

(** The least positive float, about 4.9e-324. *)
Definition tiny : float := SF2Prim (S754_finite false 1 (-1074)).

Definition listing (folder : string) : option (list string) :=
  Some ["a.mp4"; "b.mp4"].

(** Every command succeeds and every video lasts ten seconds. *)
Definition healthy : env :=
  Env (fun _ => 0%Z) (fun _ => Some ten) show listing (fun _ => []).

(** ffmpeg is installed, but every extraction command exits with status 1. *)
Definition failing : env :=
  Env (fun cmd => if bool_decide (cmd = ["ffmpeg"; "-version"]) then 0%Z else 1%Z)
      (fun _ => Some ten) show listing (fun _ => []).

(** The probe of [./a.mp4] prints nothing that [float] accepts. *)
Definition unprobed : env :=
  Env (fun _ => 0%Z)
      (fun cmd => if bool_decide (last cmd = Some "./a.mp4") then None else Some ten)
      show listing (fun _ => []).

(** An empty file system, nothing typed, nothing done yet. *)
Definition w0 : world := World ∅ [] [].

(** The command line with no switch at all. *)
Definition no_switch : cli :=
  Cli None false false false None None None None false false false.

End Demo.

(** ** Notions for the properties of whole runs *)

(** Every run of [m] takes a world to one that is [R]-related to it. *)
Definition respects {A} (R : world -> world -> Prop) (m : M A) : Prop :=
  forall w, R w (snd (m w)).

(** No path stops existing. *)
Definition fs_grows (w w' : world) : Prop := fs w ⊆ fs w'.

(** Nothing is read from standard input. *)
Definition stdin_kept (w w' : world) : Prop := stdin w' = stdin w.

(** [m] ends: it returns, or raises an exception of [S]. *)
Definition raises_only {A} (S : exn -> Prop) (m : M A) : Prop :=
  forall w,
    match fst (m w) with
    | Ok _ => True
    | Raise e => S e
    | Diverge => False
    end.

(** The exceptions of the schedule computation. *)
Definition schedule_exn (e : exn) : Prop :=
  e = ValueError \/ e = ZeroDivisionError \/ e = OverflowError.

(** The exceptions the processing of a folder can end with. *)
Definition run_exn (prompt : bool) (e : exn) : Prop :=
  schedule_exn e \/ e = OSError
  \/ (prompt = true /\ (e = SystemExit 0 \/ e = EOFError)).

(** The exceptions a run of [main] can end with. *)
Definition main_exn (line : argv) (e : exn) : Prop :=
  match line with
  | Rejected => e = SystemExit 2
  | Accepted c => e = SystemExit 1 \/ run_exn (cli_P c) e
  end.

Definition is_probe_run (e : event) : bool :=
  match e with
  | Run cmd _ _ _ => bool_decide (cmd !! 0%nat = Some "ffprobe")
  | _ => false
  end.

(** What the verbosity switches allow an event to be when no question is
    asked: nothing is printed in silent mode, progress lines only in info
    mode, fallback notices only otherwise; ffmpeg gets no stream in silent
    mode, has its output discarded and its diagnostics captured in info
    mode, and inherits both streams otherwise. *)
Definition mode_event (silent info : bool) (e : event) : Prop :=
  match e with
  | Print msg =>
      if silent then False
      else if info then exists video_file, msg = "Processing: " +:+ video_file
      else exists video_file, msg = fast_notice video_file
  | Input _ => False
  | Run cmd _ stdout stderr =>
      cmd !! 0%nat = Some "ffmpeg" ->
      (stdout, stderr) =
        if silent then (DEVNULL, DEVNULL)
        else if info then (DEVNULL, PIPE)
        else (Inherit, Inherit)
  | Makedirs _ => True
  end.

(** The paths a recursive traversal hands to [process_file], in order. *)
Definition walked_files (E : env) (folder : string) : list string :=
  flat_map (fun '(root, files) => map (os_path.join root) files)
           (os_walk E folder).

(** The question [process_file] asks. *)
Definition question (video_file : string) : string :=
  "Process " +:+ video_file +:+ "? (y/n/a) ".

(** The world after [input] has read one line. *)
Definition asked (video_file : string) (rest : list string) (w : world) : world :=
  World (fs w) rest (trace w ++ [Input (question video_file)]).

(** The paths a traversal hands to [process_file]; [None] when the folder
    cannot be listed. *)
Definition visited (E : env) (folder : string) (recursive : bool)
    : option (list string) :=
  if recursive then Some (walked_files E folder)
  else map (os_path.join folder) <$> os_listdir E folder.

(** [process_file] gets as far as the extraction for a video: either no
    question is asked, or the line read is neither [n] nor [a]; [w'] is the
    world in which the extraction starts. *)
Definition proceeds (prompt : bool) (video_file : string) (w w' : world) : Prop :=
  if prompt then
    exists answer rest,
      stdin w = answer :: rest
      /\ Str.lower (Str.strip answer) <> "n"
      /\ Str.lower (Str.strip answer) <> "a"
      /\ w' = asked video_file rest w
  else w' = w.

(** * Proofs *)

Lemma log_nil w : log [] w = w.
Proof. destruct w; unfold log; simpl. by rewrite app_nil_r. Qed.

Lemma trace_log evs w : trace (log evs w) = trace w ++ evs.
Proof. done. Qed.

Lemma log_log evs1 evs2 w : log evs2 (log evs1 w) = log (evs1 ++ evs2) w.
Proof. unfold log; simpl. by rewrite app_assoc. Qed.

Lemma count_app p evs1 evs2 : count p (evs1 ++ evs2) = (count p evs1 + count p evs2)%nat.
Proof. unfold count. by rewrite filter_app, length_app. Qed.

Lemma count_one p e : count p [e] = if p e then 1%nat else 0%nat.
Proof.
  unfold count. rewrite filter_cons.
  destruct (decide (p e = true)) as [->|Hf]; [done|]. by destruct (p e).
Qed.

Lemma count_none p evs : Forall (fun e => p e = false) evs -> count p evs = 0%nat.
Proof.
  unfold count. induction 1 as [|e evs He _ IH]; [done|].
  rewrite filter_cons. destruct (decide (p e = true)) as [Ht|_]; [congruence|done].
Qed.

Lemma count_all p evs : Forall (fun e => p e = true) evs -> count p evs = length evs.
Proof.
  unfold count. induction 1 as [|e evs He _ IH]; [done|].
  rewrite filter_cons. destruct (decide (p e = true)); [simpl; lia|done].
Qed.

Section Appends.

Context {A B : Type} (P : event -> Prop).

Lemma appends_ret (a : A) : appends P (ret a).
Proof. intros w. exists []. simpl. by rewrite app_nil_r. Qed.

Lemma appends_raise (e : exn) : appends P (@raise A e).
Proof. intros w. exists []. simpl. by rewrite app_nil_r. Qed.

Lemma appends_diverge : appends P (@diverge A).
Proof. intros w. exists []. simpl. by rewrite app_nil_r. Qed.

Lemma appends_bind (m : M A) (k : A -> M B) :
  appends P m -> (forall a, appends P (k a)) -> appends P (bind m k).
Proof.
  intros Hm Hk w. unfold bind.
  destruct (Hm w) as (evs1 & Ht1 & HP1).
  destruct (m w) as [[a| e |] w1] eqn:Hrun; simpl in *.
  - destruct (Hk a w1) as (evs2 & Ht2 & HP2).
    exists (evs1 ++ evs2). rewrite Ht2, Ht1, app_assoc.
    split; [done | by apply Forall_app].
  - by exists evs1.
  - by exists evs1.
Qed.

Lemma appends_try_except (body handler : M A) (exc : exn) :
  appends P body -> appends P handler -> appends P (try_except body exc handler).
Proof.
  intros Hb Hh w. unfold try_except.
  destruct (Hb w) as (evs1 & Ht1 & HP1).
  destruct (body w) as [[a| e |] w1] eqn:Hrun; simpl in *.
  - by exists evs1.
  - destruct (decide (e = exc)); [|by exists evs1].
    destruct (Hh w1) as (evs2 & Ht2 & HP2).
    exists (evs1 ++ evs2). rewrite Ht2, Ht1, app_assoc.
    split; [done | by apply Forall_app].
  - by exists evs1.
Qed.

End Appends.

Lemma appends_emit (P : event -> Prop) (e : event) : P e -> appends P (emit e).
Proof. intros He w. exists [e]. simpl. split; [done | by constructor]. Qed.

Lemma appends_input (P : event -> Prop) (prompt : string) :
  P (Input prompt) -> appends P (input prompt).
Proof.
  intros He w. exists [Input prompt]. unfold input.
  destruct (stdin w); simpl; (split; [done | by constructor]).
Qed.

Lemma appends_os_path_exists (P : event -> Prop) (p : string) :
  appends P (os_path_exists p).
Proof. intros w. exists []. simpl. by rewrite app_nil_r. Qed.

Lemma appends_os_makedirs (P : event -> Prop) (p : string) :
  P (Makedirs p) -> appends P (os_makedirs p).
Proof. intros He w. exists [Makedirs p]. simpl. split; [done | by constructor]. Qed.

Lemma appends_for_each {A} (P : event -> Prop) (l : list A) (body : A -> M unit) :
  (forall x, appends P (body x)) -> appends P (for_each l body).
Proof.
  intros Hb. induction l as [|x l IH]; simpl.
  - apply appends_ret.
  - apply appends_bind; [apply Hb | intros _; apply IH].
Qed.

Lemma appends_subprocess_run (P : event -> Prop) (E : env) cmd check out err :
  P (Run cmd check out err) -> appends P (subprocess_run E cmd check out err).
Proof.
  intros He. unfold subprocess_run. apply appends_bind.
  - by apply appends_emit.
  - intros _. destruct (_ && _); [apply appends_raise | apply appends_ret].
Qed.

(** ** Equations of the extractors *)

Section Equations.

Variable E : env.

Lemma subprocess_run_eq cmd check out err w :
  subprocess_run E cmd check out err w =
  (if check && negb (returncode E cmd =? 0)%Z then Raise CalledProcessError
   else Ok (returncode E cmd),
   log [Run cmd check out err] w).
Proof. unfold subprocess_run, bind, emit; simpl. by destruct (_ && _). Qed.

Lemma ensure_dir_eq output_dir w :
  ensure_dir output_dir w = (Ok tt, with_dir output_dir w).
Proof.
  unfold ensure_dir, with_dir, bind, os_path_exists; simpl.
  by destruct (bool_decide _).
Qed.

Lemma probe_duration_eq video_file w :
  probe_duration E video_file w =
  (match float_stdout E (ffprobe_command video_file) with
   | Some duration => Ok duration
   | None => Raise ValueError
   end,
   log [probe_event video_file] w).
Proof.
  unfold probe_duration, bind. rewrite subprocess_run_eq; simpl.
  by destruct (float_stdout _ _).
Qed.

Lemma float_of_int_eq n w :
  float_of_int n w =
  (if (Z.abs n <? float_limit)%Z then Ok (to_float n) else Raise OverflowError, w).
Proof. unfold float_of_int. by destruct (_ <? _)%Z. Qed.

Lemma float_div_int_eq x n w :
  float_div_int x n w =
  (if (Z.abs n <? float_limit)%Z then
     if (n =? 0)%Z then Raise ZeroDivisionError
     else Ok (PrimFloat.div x (to_float n))
   else Raise OverflowError, w).
Proof.
  unfold float_div_int, bind. rewrite float_of_int_eq.
  destruct (_ <? _)%Z; [|done]. by destruct (n =? 0)%Z.
Qed.

Lemma converts_ltb n : converts n -> (Z.abs n <? float_limit)%Z = true.
Proof. unfold converts. by rewrite Z.ltb_lt. Qed.

Lemma range_elem n i : i ∈ range n -> (0 <= i < n)%Z.
Proof.
  unfold range. intros (k & -> & Hk%elem_of_seq)%list_elem_of_fmap. lia.
Qed.

Lemma range_converts n : converts n -> Forall converts (range n).
Proof.
  intros Hn. apply Forall_forall. intros i Hi%range_elem.
  unfold converts in *. lia.
Qed.

Lemma int_mul_float_eq i x w :
  converts i -> int_mul_float i x w = (Ok (PrimFloat.mul (to_float i) x), w).
Proof.
  intros Hi. unfold int_mul_float, bind.
  by rewrite float_of_int_eq, (converts_ltb i Hi).
Qed.

Lemma fallback_frame_eq video_file output_dir silent info width height interval i w :
  converts i ->
  fallback_frame E video_file output_dir silent info width height interval i w =
  (Ok tt,
   log [fallback_event E video_file output_dir silent info width height i
          (PrimFloat.mul (to_float i) interval)] w).
Proof.
  intros Hi. unfold fallback_frame, fallback_event. unfold bind at 1.
  rewrite (int_mul_float_eq i interval w Hi). cbv beta iota zeta.
  destruct (silent || info); unfold bind; rewrite subprocess_run_eq; done.
Qed.

Lemma fallback_loop_eq video_file output_dir silent info width height interval l w :
  Forall converts l ->
  for_each l (fallback_frame E video_file output_dir silent info width height interval) w =
  (Ok tt,
   log (map (fun i => fallback_event E video_file output_dir silent info width
                        height i (PrimFloat.mul (to_float i) interval)) l) w).
Proof.
  intros Hl. revert w. induction Hl as [|i l Hi Hl IH]; intros w; simpl.
  - by rewrite log_nil.
  - unfold bind. rewrite fallback_frame_eq, IH, log_log by done. done.
Qed.

Lemma zip_with_timestamps {C} (f : Z -> float -> C) (g : Z -> float) (l : list Z) :
  zip_with f l (map g l) = map (fun i => f i (g i)) l.
Proof. induction l as [|i l IH]; simpl; [done | by rewrite IH]. Qed.

(** The whole of [extract_frames_fallback]. *)
Lemma extract_frames_fallback_eq video_file output_dir frame_count silent info
    width height w :
  extract_frames_fallback E video_file output_dir frame_count silent info
    width height w =
  let w1 := log [probe_event video_file] (with_dir output_dir w) in
  match float_stdout E (ffprobe_command video_file) with
  | None => (Raise ValueError, w1)
  | Some duration =>
      if (Z.abs frame_count <? float_limit)%Z then
        if (frame_count =? 0)%Z then (Raise ZeroDivisionError, w1)
        else
          (Ok tt,
           log (zip_with
                  (fallback_event E video_file output_dir silent info width height)
                  (range frame_count)
                  (fallback_timestamps duration frame_count)) w1)
      else (Raise OverflowError, w1)
  end.
Proof.
  unfold extract_frames_fallback, bind.
  rewrite ensure_dir_eq, probe_duration_eq.
  destruct (float_stdout _ _) as [duration|]; simpl; [|done].
  rewrite float_div_int_eq.
  destruct (Z.abs frame_count <? float_limit)%Z eqn:Hfits; [|done].
  destruct (frame_count =? 0)%Z; [done|].
  rewrite fallback_loop_eq by (apply range_converts; by apply Z.ltb_lt).
  unfold fallback_timestamps. by rewrite zip_with_timestamps.
Qed.

(** The sampling filter of the fast path. *)
Lemma fast_sampling_eq video_file frame_count time_interval w :
  fast_sampling E video_file frame_count time_interval w =
  if (0 <? time_interval)%Z then
    (Ok ("fps=1/" +:+ Str.fmt_int time_interval), w)
  else
    let w1 := log [probe_event video_file] w in
    match float_stdout E (ffprobe_command video_file) with
    | None => (Raise ValueError, w1)
    | Some duration =>
        if (Z.abs frame_count <? float_limit)%Z then
          if (frame_count =? 0)%Z then (Raise ZeroDivisionError, w1)
          else
            (Ok ("fps=1/" +:+
                 repr_float E (PrimFloat.div duration (to_float frame_count))),
             w1)
        else (Raise OverflowError, w1)
    end.
Proof.
  unfold fast_sampling. destruct (0 <? time_interval)%Z; [done|].
  unfold bind. rewrite probe_duration_eq.
  destruct (float_stdout _ _) as [duration|]; simpl; [|done].
  rewrite float_div_int_eq.
  destruct (Z.abs frame_count <? float_limit)%Z; [|done].
  by destruct (frame_count =? 0)%Z.
Qed.

(** [extract_frames] once the sampling filter has been computed: one fast
    invocation, and the fallback exactly when it exits non-zero. *)
Lemma extract_frames_eq video_file output_dir frame_count time_interval
    silent info width height w sampling w1 :
  fast_sampling E video_file frame_count time_interval
    (with_dir output_dir w) = (Ok sampling, w1) ->
  let cmd :=
    fast_command video_file output_dir (sampling +:+ scale_args width height) in
  let w2 := log [fast_event silent info cmd] w1 in
  extract_frames E video_file output_dir frame_count time_interval silent info
    width height w =
  if (returncode E cmd =? 0)%Z then (Ok tt, w2)
  else
    extract_frames_fallback E video_file output_dir frame_count silent info
      width height (log (notice silent info video_file) w2).
Proof.
  intros Hs cmd w2. unfold extract_frames, bind at 1.
  rewrite ensure_dir_eq. unfold try_except, bind at 1. rewrite Hs.
  fold cmd. unfold w2, fast_event, notice.
  destruct silent, info; unfold bind; rewrite subprocess_run_eq; simpl;
    destruct (returncode E cmd =? 0)%Z; simpl; try done;
    (destruct (decide (CalledProcessError = CalledProcessError)); [|done]);
    unfold bind, print, emit, ret; simpl; try done;
    by rewrite log_nil.
Qed.

(** [extract_frames] when the sampling filter cannot be computed: the
    exception is not a [CalledProcessError] and leaves the function. *)
Lemma extract_frames_raise video_file output_dir frame_count time_interval
    silent info width height w e w1 :
  fast_sampling E video_file frame_count time_interval
    (with_dir output_dir w) = (Raise e, w1) ->
  extract_frames E video_file output_dir frame_count time_interval silent info
    width height w = (Raise e, w1).
Proof.
  intros Hs.
  assert (e <> CalledProcessError) as Hne.
  { rewrite fast_sampling_eq in Hs.
    destruct (0 <? time_interval)%Z; [done|]. cbv zeta in Hs.
    destruct (float_stdout _ _); [|congruence].
    destruct (Z.abs frame_count <? float_limit)%Z; [|congruence].
    destruct (frame_count =? 0)%Z; congruence. }
  unfold extract_frames, bind at 1.
  rewrite ensure_dir_eq. unfold try_except, bind at 1. rewrite Hs.
  by destruct (decide (e = CalledProcessError)).
Qed.

End Equations.

(** ** The schedule of the fallback *)

Section Schedule.

Lemma range_length n : length (range n) = Z.to_nat n.
Proof. unfold range. by rewrite length_map, length_seq. Qed.

Lemma range_lookup n (k : nat) :
  (k < Z.to_nat n)%nat -> range n !! k = Some (Z.of_nat k).
Proof.
  intros Hk. unfold range. rewrite list_lookup_fmap, lookup_seq_lt; done.
Qed.

Lemma fallback_timestamps_length duration frame_count :
  length (fallback_timestamps duration frame_count) = Z.to_nat frame_count.
Proof. unfold fallback_timestamps. by rewrite length_map, range_length. Qed.

Lemma fallback_timestamps_lookup duration frame_count (k : nat) :
  (k < Z.to_nat frame_count)%nat ->
  fallback_timestamps duration frame_count !! k =
  Some (PrimFloat.mul (to_float (Z.of_nat k))
          (PrimFloat.div duration (to_float frame_count))).
Proof.
  intros Hk. unfold fallback_timestamps.
  rewrite list_lookup_fmap, range_lookup; done.
Qed.

(** Zero times a number of finite size is zero (of either sign); zero times
    an infinity or NaN is NaN. *)
Lemma zero_times_finite (x : float) :
  finite x = true -> PrimFloat.eqb (PrimFloat.mul (to_float 0) x) 0 = true.
Proof.
  unfold finite. intros Hx.
  rewrite FloatAxioms.eqb_spec, FloatAxioms.mul_spec.
  change (Prim2SF (to_float 0)) with (S754_zero false).
  destruct (Prim2SF x) as [s | s | | s m e]; try discriminate Hx;
    by destruct s.
Qed.

Lemma scenario_10_5 :
  fallback_timestamps 10 5 = [0; 2; 4; 6; 8]%float.
Proof. by vm_compute. Qed.

End Schedule.

(** C1, as the code has it.  For a positive count [n] that converts to a
    float and a probed duration [d], the fallback extractor issues one
    ffmpeg call per timestamp of its schedule; the schedule has exactly [n]
    timestamps, the one at position [i] being the binary64 product of [i]
    and the binary64 quotient [d / n]; the first timestamp is zero whenever
    that quotient is of finite size; for [d = 10] and [n = 5] the schedule
    is exactly 0, 2, 4, 6, 8. *)
Theorem fallback_schedule_by_count (E : env) (video_file output_dir : string)
    (silent info : bool) (width height : Z) (n : Z) (d : float) (w : world) :
  (0 < n)%Z -> converts n ->
  float_stdout E (ffprobe_command video_file) = Some d ->
  let ts := fallback_timestamps d n in
  extract_frames_fallback E video_file output_dir n silent info width height w =
    (Ok tt,
     log (zip_with (fallback_event E video_file output_dir silent info width height)
            (range n) ts)
       (log [probe_event video_file] (with_dir output_dir w)))
  /\ length ts = Z.to_nat n
  /\ (forall i : nat, (i < Z.to_nat n)%nat ->
        ts !! i =
        Some (PrimFloat.mul (to_float (Z.of_nat i))
                (PrimFloat.div d (to_float n))))
  /\ (finite (PrimFloat.div d (to_float n)) = true ->
      exists x, ts !! 0%nat = Some x /\ PrimFloat.eqb x 0 = true)
  /\ fallback_timestamps 10 5 = [0; 2; 4; 6; 8]%float.
Proof.
  intros Hn Hfits Hprobe ts.
  split; [|split; [|split; [|split]]].
  - rewrite extract_frames_fallback_eq, Hprobe, (converts_ltb n Hfits).
    cbv zeta. destruct (n =? 0)%Z eqn:Hz; [lia | done].
  - apply fallback_timestamps_length.
  - intros i Hi. by apply fallback_timestamps_lookup.
  - intros Hfinite. eexists. split.
    + unfold ts. rewrite fallback_timestamps_lookup by lia. reflexivity.
    + by apply zero_times_finite.
  - apply scenario_10_5.
Qed.

(** C1, at the scenario of ten seconds and five frames. *)
Lemma fallback_schedule_by_count_witness :
  (0 < 5)%Z /\ converts 5 /\
  float_stdout Demo.healthy (ffprobe_command "a.mp4") = Some Demo.ten /\
  length (fallback_timestamps Demo.ten 5) = 5%nat.
Proof.
  assert (converts 5) as Hfits by (by vm_compute).
  split; [lia|]. split; [exact Hfits|]. split; [done|].
  apply (fallback_schedule_by_count Demo.healthy "a.mp4" "a_frames"
           false false 0 0 5 Demo.ten Demo.w0); done.
Defined.

(** C1 as the spec words it fails.  For the smallest positive duration and
    two frames both timestamps are zero, so that the schedule is not
    strictly increasing; for one second and ten frames the third and fourth
    timestamp (0.2 and 0.30000000000000004, in hexadecimal below) are not
    [d / n] apart; and for a count of [10 ^ 309], positive but too large
    for a float, there is no schedule at all: the division raises
    [OverflowError]. *)
Lemma schedule_rounding_counterexample :
  PrimFloat.ltb 0 Demo.tiny = true
  /\ fallback_timestamps Demo.tiny 2 = [0; 0]%float
  /\ PrimFloat.ltb 0 0 = false
  /\ fallback_timestamps 1 10 !! 2%nat = Some 0x1.999999999999ap-3%float
  /\ fallback_timestamps 1 10 !! 3%nat = Some 0x1.3333333333334p-2%float
  /\ PrimFloat.eqb (PrimFloat.sub 0x1.3333333333334p-2 0x1.999999999999ap-3)
        (PrimFloat.div 1 (to_float 10)) = false
  /\ fst (extract_frames_fallback Demo.healthy "./a.mp4" "./a_frames"
            (10 ^ 309) false false 0 0 Demo.w0) = Raise OverflowError.
Proof. vm_compute. by repeat split. Qed.

(** ** Paths *)

Section Paths.

Lemma length_append (s t : string) :
  String.length (s +:+ t) = (String.length s + String.length t)%nat.
Proof. induction s as [|a s IH]; simpl; [done | by rewrite IH]. Qed.

Lemma append_assoc (s t u : string) : (s +:+ t) +:+ u = s +:+ (t +:+ u).
Proof.
  induction s as [|a s IH]; [done|].
  change (String a ((s +:+ t) +:+ u) = String a (s +:+ (t +:+ u))).
  by f_equal.
Qed.

Lemma take_drop (n : nat) (s : string) : Str.take n s +:+ Str.drop n s = s.
Proof.
  revert s. induction n as [|n IH]; intros s; destruct s as [|a s];
    try done.
  change (String a (Str.take n s +:+ Str.drop n s) = String a s).
  f_equal. apply IH.
Qed.

Lemma drop_append (p s : string) : Str.drop (String.length p) (p +:+ s) = s.
Proof. induction p as [|a p IH]; simpl; [done | apply IH]. Qed.

(** [endswith] is Python's: the string is some prefix followed by the
    suffix. *)
Lemma endswith_spec (s suf : string) :
  Str.endswith s suf = true <-> exists p, s = p +:+ suf.
Proof.
  unfold Str.endswith. rewrite andb_true_iff, Nat.leb_le, String.eqb_eq. split.
  - intros [Hlen Hdrop].
    exists (Str.take (String.length s - String.length suf) s).
    pose proof (take_drop (String.length s - String.length suf) s) as Hs.
    by rewrite Hdrop in Hs.
  - intros [p ->]. rewrite length_append. split; [lia|].
    replace (String.length p + String.length suf - String.length suf)%nat
      with (String.length p) by lia.
    apply drop_append.
Qed.

Lemma endswith_any_spec (s : string) (sufs : list string) :
  Str.endswith_any s sufs = true <->
  exists p suf, suf ∈ sufs /\ s = p +:+ suf.
Proof.
  unfold Str.endswith_any. rewrite existsb_exists. split.
  - intros (suf & Hin & [p Hp]%endswith_spec).
    exists p, suf. split; [by apply list_elem_of_In | done].
  - intros (p & suf & Hin & Hp). exists suf.
    split; [by apply list_elem_of_In | apply endswith_spec; by exists p].
Qed.

Lemma take_append (p s : string) : Str.take (String.length p) (p +:+ s) = p.
Proof. induction p as [|a p IH]; simpl; [by destruct s | by rewrite IH]. Qed.

Lemma rfind_append_none (c : ascii) (s t : string) :
  Str.rfind c t = None -> Str.rfind c (s +:+ t) = Str.rfind c s.
Proof.
  intros Ht. induction s as [|a s IH]; simpl; [done | by rewrite IH].
Qed.

Lemma rfind_append_some (c : ascii) (s t : string) (i : nat) :
  Str.rfind c t = Some i ->
  Str.rfind c (s +:+ t) = Some (String.length s + i)%nat.
Proof.
  intros Ht. induction s as [|a s IH]; simpl; [done | by rewrite IH].
Qed.

Lemma rfind_head (c a : ascii) (s : string) :
  Str.rfind c (String a s) = None -> a <> c /\ Str.rfind c s = None.
Proof.
  simpl. destruct (Str.rfind c s); [done|].
  destruct (Ascii.eqb a c) eqn:Hac; [done|].
  intros _. split; [by apply Ascii.eqb_neq | done].
Qed.

Lemma prefix_empty (s : string) : String.prefix "" s = true.
Proof. by destruct s. Qed.

Lemma prefix_cons (a b : ascii) (s1 s2 : string) :
  String.prefix (String a s1) (String b s2)
  = if Ascii.ascii_dec a b then String.prefix s1 s2 else false.
Proof. done. Qed.

Lemma rfind_cons_none (c a : ascii) (s : string) :
  a <> c -> Str.rfind c s = None -> Str.rfind c (String a s) = None.
Proof.
  intros Hac Hs. simpl. rewrite Hs. by rewrite (proj2 (Ascii.eqb_neq a c) Hac).
Qed.

Lemma rfind_cons_here (c : ascii) (s : string) :
  Str.rfind c s = None -> Str.rfind c (String c s) = Some 0%nat.
Proof. intros Hs. simpl. by rewrite Hs, Ascii.eqb_refl. Qed.

Lemma rstrip_append_sep (c : ascii) (s : string) :
  Str.rstrip c (s +:+ String c "") = Str.rstrip c s.
Proof.
  induction s as [|a s IH]; simpl; [by rewrite Ascii.eqb_refl | by rewrite IH].
Qed.

Lemma rstrip_length (c : ascii) (s : string) :
  (String.length (Str.rstrip c s) <= String.length s)%nat.
Proof.
  induction s as [|a s IH]; simpl; [done|].
  destruct (Str.rstrip c s); [destruct (Ascii.eqb a c)|]; simpl in *; lia.
Qed.

(** A path that [rstrip('/')] leaves alone does not end in a slash. *)
Lemma rstrip_fixed_endswith (c : ascii) (s : string) :
  Str.rstrip c s = s -> Str.endswith s (String c "") = false.
Proof.
  intros Hfix. destruct (Str.endswith s (String c "")) eqn:Hends; [|done].
  apply endswith_spec in Hends as [p ->].
  rewrite rstrip_append_sep in Hfix.
  pose proof (rstrip_length c p) as Hlen.
  rewrite Hfix, length_append in Hlen. simpl in Hlen. lia.
Qed.

(** The folder of the frames of [dir/stem.ext]: next to the video, named
    after the stem. *)
Lemma frames_dir_of (dir stem ext : string) :
  Str.rstrip "/" dir = dir ->
  stem <> "" ->
  Str.rfind "/" stem = None -> Str.rfind "." stem = None ->
  Str.rfind "/" ext = None -> Str.rfind "." ext = None ->
  frames_dir (dir +:+ "/" +:+ stem +:+ "." +:+ ext)
  = dir +:+ "/" +:+ stem +:+ "_frames".
Proof.
  intros Hdir Hstem Hs1 Hs2 He1 He2.
  destruct stem as [|a stem]; [done|].
  destruct (rfind_head _ _ _ Hs1) as [Ha1 _].
  destruct (rfind_head _ _ _ Hs2) as [Ha2 _].
  set (name := String a stem +:+ "." +:+ ext).
  assert (Str.rfind "/" name = None) as Hn1.
  { unfold name. rewrite rfind_append_none; [done|].
    by apply rfind_cons_none. }
  assert (Str.rfind "." name = Some (String.length (String a stem) + 0)%nat)
    as Hn2.
  { unfold name. apply rfind_append_some. by apply rfind_cons_here. }
  assert (Str.rfind "/" (dir +:+ "/" +:+ name)
          = Some (String.length dir + 0)%nat) as Hsep.
  { apply rfind_append_some. by apply rfind_cons_here. }
  assert (os_path.basename (dir +:+ "/" +:+ name) = name) as Hbase.
  { unfold os_path.basename, os_path.rfind1, os_path.sep. rewrite Hsep.
    rewrite Nat.add_0_r.
    change (dir +:+ "/" +:+ name) with (dir +:+ String "/" name).
    replace (dir +:+ String "/" name) with ((dir +:+ "/") +:+ name)
      by (by rewrite append_assoc).
    replace (S (String.length dir)) with (String.length (dir +:+ "/"))
      by (rewrite length_append; simpl; lia).
    apply drop_append. }
  assert (fst (os_path.splitext name) = String a stem) as Hsplit.
  { unfold os_path.splitext, os_path.rfind1, os_path.sep, os_path.extsep.
    rewrite Hn1, Hn2, Nat.add_0_r, Nat.sub_0_r.
    change (Str.drop 0 name) with name.
    assert (Str.take (String.length (String a stem)) name = String a stem)
      as -> by apply (take_append (String a stem)).
    change (os_path.all_dots (String a stem))
      with (Ascii.eqb a "." && os_path.all_dots stem).
    by rewrite (proj2 (Ascii.eqb_neq a ".") Ha2). }
  assert (os_path.dirname (dir +:+ "/" +:+ name)
          = if String.eqb dir "" then "/" else dir) as Hdirname.
  { unfold os_path.dirname, os_path.rfind1, os_path.sep. rewrite Hsep.
    rewrite Nat.add_0_r.
    change (dir +:+ "/" +:+ name) with (dir +:+ String "/" name).
    replace (dir +:+ String "/" name) with ((dir +:+ "/") +:+ name)
      by (by rewrite append_assoc).
    replace (S (String.length dir)) with (String.length (dir +:+ "/"))
      by (rewrite length_append; simpl; lia).
    rewrite take_append. cbv zeta. rewrite rstrip_append_sep, Hdir.
    by destruct dir. }
  unfold frames_dir, base_name_of. cbv zeta.
  rewrite Hbase, Hsplit, Hdirname. unfold os_path.join.
  replace (Str.startswith (String a stem +:+ "_frames") "/") with false.
  2: { unfold Str.startswith.
       change (String a stem +:+ "_frames") with (String a (stem +:+ "_frames")).
       rewrite prefix_cons. by destruct (Ascii.ascii_dec "/" a) as [<-|]. }
  pose proof (rstrip_fixed_endswith "/" dir Hdir) as Hends.
  destruct dir as [|b dir]; [done|].
  change (String.eqb (String b dir) "") with false.
  change (String.eqb (String b dir) "") with false in Hends.
  cbv iota. by rewrite Hends.
Qed.

End Paths.

(** ** The output folder *)

Section Allocation.

Lemma candidate_succ output_dir k :
  candidate output_dir (S k) = output_dir +:+ "_" +:+ Str.fmt_int (Z.of_nat k + 1).
Proof. unfold candidate. by rewrite Nat2Z.inj_succ, <- Z.add_1_r. Qed.

Lemma append_nonempty_ne (s t : string) : t <> "" -> s <> s +:+ t.
Proof.
  intros Ht Heq. apply (f_equal String.length) in Heq.
  rewrite length_append in Heq.
  destruct t; [done | simpl in Heq; lia].
Qed.

Lemma candidate_inj output_dir j k :
  candidate output_dir j = candidate output_dir k -> j = k.
Proof.
  destruct j as [|j], k as [|k]; cbv beta iota delta [candidate];
    intros Heq; [done| | |].
  - by apply append_nonempty_ne in Heq.
  - symmetry in Heq. by apply append_nonempty_ne in Heq.
  - apply String.app_inj, (String.app_inj "_") in Heq.
    unfold Str.fmt_int in Heq. apply pretty_Z_inj in Heq. lia.
Qed.

(** The loop started at candidate [k] stops at the first free candidate
    from [k] on; [rest] bounds the existing paths that can still be met. *)
Lemma unique_folder_loop_spec output_dir (w : world) :
  forall (fuel k : nat) (rest : gset string),
    (forall j, (k <= j)%nat ->
       (candidate output_dir j ∈ fs w) -> (candidate output_dir j ∈ rest)) ->
    (size rest <= fuel)%nat ->
    exists k', (k <= k')%nat /\
      unique_folder_loop fuel output_dir (Z.of_nat k + 1)
        (candidate output_dir k) w = (Ok (candidate output_dir k'), w) /\
      (candidate output_dir k' ∉ fs w) /\
      (forall j, (k <= j < k')%nat -> candidate output_dir j ∈ fs w).
Proof.
  induction fuel as [|fuel IH]; intros k rest Hrest Hsize.
  - exists k. assert (candidate output_dir k ∉ fs w) as Hfree.
    { intros Hin. apply (Hrest k) in Hin; [|lia].
      assert (size rest = 0%nat) as Hz by lia.
      apply size_empty_inv in Hz. set_solver. }
    split; [lia|]. split; [|split; [done | intros j; lia]].
    simpl. unfold bind, os_path_exists. by rewrite bool_decide_eq_false_2.
  - destruct (decide (candidate output_dir k ∈ fs w)) as [Hin|Hfree].
    + destruct (IH (S k) (rest ∖ {[candidate output_dir k]})) as (k' & Hk' & Hrun & Hfree & Hbelow).
      * intros j Hj Hj_in. apply elem_of_difference. split; [apply Hrest; [lia | done]|].
        intros Heq%elem_of_singleton%candidate_inj. lia.
      * assert (candidate output_dir k ∈ rest) as Hk_rest by (apply Hrest; [lia | done]).
        pose proof (size_difference rest {[candidate output_dir k]}) as Hdiff.
        rewrite size_singleton in Hdiff.
        assert ({[candidate output_dir k]} ⊆ rest) as Hsub by set_solver.
        specialize (Hdiff Hsub). 
        assert (size rest <> 0%nat).
        { intros Hz. apply size_empty_inv in Hz. set_solver. }
        lia.
      * exists k'. split; [lia|]. split; [|split; [done|]].
        -- simpl. unfold bind at 1, os_path_exists at 1.
           rewrite bool_decide_eq_true_2 by done.
           rewrite <- candidate_succ.
           replace (Z.of_nat k + 1 + 1)%Z with (Z.of_nat (S k) + 1)%Z by lia.
           exact Hrun.
        -- intros j Hj. destruct (decide (j = k)) as [->|Hne]; [done|].
           apply Hbelow. lia.
    + exists k. split; [lia|]. split; [|split; [done | intros j; lia]].
      simpl. unfold bind, os_path_exists. by rewrite bool_decide_eq_false_2.
Qed.

End Allocation.

(** C7. In dedicated-subfolder mode the folder handed out for a source
    video does not exist when the allocator is called: it is the first of
    [<stem>_frames], [<stem>_frames_1], [<stem>_frames_2], ... (next to the
    source) that is not an existing path, every earlier one being taken;
    the loop always ends and leaves the world as it was.  For a video
    [dir/stem.ext] the base candidate is [dir/stem_frames]; for
    [/v/foo.mp4] the answers are [/v/foo_frames], then [/v/foo_frames_1]
    when that exists, then [/v/foo_frames_2] when both exist. *)
Theorem allocate_output_dir_fresh (video_file : string) (w : world) :
  (exists k : nat,
    allocate_output_dir video_file w =
      (Ok (candidate (frames_dir video_file) k), w)
    /\ (candidate (frames_dir video_file) k ∉ fs w)
    /\ (forall j : nat, (j < k)%nat -> candidate (frames_dir video_file) j ∈ fs w)
    /\ candidate (frames_dir video_file) 0 = frames_dir video_file
    /\ candidate (frames_dir video_file) 1 = frames_dir video_file +:+ "_1"
    /\ candidate (frames_dir video_file) 2 = frames_dir video_file +:+ "_2")
  /\ frames_dir video_file
     = os_path.join (os_path.dirname video_file)
         (fst (os_path.splitext (os_path.basename video_file)) +:+ "_frames")
  /\ (forall dir stem ext,
        video_file = dir +:+ "/" +:+ stem +:+ "." +:+ ext ->
        Str.rstrip "/" dir = dir -> stem <> "" ->
        Str.rfind "/" stem = None -> Str.rfind "." stem = None ->
        Str.rfind "/" ext = None -> Str.rfind "." ext = None ->
        frames_dir video_file = dir +:+ "/" +:+ stem +:+ "_frames"
        /\ forall k : nat,
             candidate (frames_dir video_file) (S k)
             = dir +:+ "/" +:+ stem +:+ "_frames_" +:+ Str.fmt_int (Z.of_nat (S k)))
  /\ allocate_output_dir "/v/foo.mp4" (World ∅ [] [])
     = (Ok "/v/foo_frames", World ∅ [] [])
  /\ allocate_output_dir "/v/foo.mp4" (World {[ "/v/foo_frames" ]} [] [])
     = (Ok "/v/foo_frames_1", World {[ "/v/foo_frames" ]} [] [])
  /\ allocate_output_dir "/v/foo.mp4"
       (World {[ "/v/foo_frames"; "/v/foo_frames_1" ]} [] [])
     = (Ok "/v/foo_frames_2",
        World {[ "/v/foo_frames"; "/v/foo_frames_1" ]} [] [])
  /\ allocate_output_dir "clips/holiday.2024.mkv"
       (World {[ "clips/holiday.2024_frames_1" ]} [] [])
     = (Ok "clips/holiday.2024_frames",
        World {[ "clips/holiday.2024_frames_1" ]} [] []).
Proof.
  split; [|split; [done|split; [|by vm_compute]]].
  - destruct (unique_folder_loop_spec (frames_dir video_file) w
                (size (fs w)) 0 (fs w)) as (k & _ & Hrun & Hfree & Hbelow);
      [done | done |].
    exists k. split; [exact Hrun|]. split; [done|].
    split; [intros j Hj; apply Hbelow; lia | done].
  - intros dir stem ext -> Hdir Hstem Hs1 Hs2 He1 He2.
    rewrite frames_dir_of by done. split; [done|].
    intros k. cbv beta iota delta [candidate].
    by rewrite !append_assoc.
Qed.

(** C7 at a source whose plain folder is taken. *)
Lemma allocate_output_dir_fresh_witness :
  (exists k : nat,
    allocate_output_dir "/v/foo.mp4" (World {[ "/v/foo_frames" ]} [] [])
    = (Ok (candidate (frames_dir "/v/foo.mp4") k),
       World {[ "/v/foo_frames" ]} [] [])
    /\ (candidate (frames_dir "/v/foo.mp4") k ∉ ({[ "/v/foo_frames" ]} : gset string)))
  /\ frames_dir "/v/foo.mp4" = "/v/foo_frames".
Proof.
  destruct (allocate_output_dir_fresh "/v/foo.mp4"
              (World {[ "/v/foo_frames" ]} [] []))
    as ((k & Hrun & Hfree & _) & _ & Hname & _).
  split; [exists k; split; [exact Hrun | exact Hfree]|].
  by destruct (Hname "/v" "foo" "mp4").
Defined.

(** ** The scaling directive *)

Section Scaling.

Variable E : env.

Lemma appends_bind_returns {A B} (P : event -> Prop) (Q : A -> Prop)
    (m : M A) (k : A -> M B) :
  appends P m -> returns Q m -> (forall a, Q a -> appends P (k a)) ->
  appends P (bind m k).
Proof.
  intros Hm HQ Hk w. unfold bind.
  destruct (Hm w) as (evs1 & Ht1 & HP1).
  destruct (m w) as [[a| e |] w1] eqn:Hrun; simpl in *.
  - destruct (Hk a (HQ _ _ _ Hrun) w1) as (evs2 & Ht2 & HP2).
    exists (evs1 ++ evs2). rewrite Ht2, Ht1, app_assoc.
    split; [done | by apply Forall_app].
  - by exists evs1.
  - by exists evs1.
Qed.

Lemma startswith_append (p x : string) : Str.startswith (p +:+ x) p = true.
Proof.
  unfold Str.startswith. induction p as [|a p IH]; simpl.
  - by destruct x.
  - by destruct (Ascii.ascii_dec a a).
Qed.

Lemma sampling_then_scale_other width height e :
  vf_of e = None -> sampling_then_scale width height e.
Proof. intros He vf_args Hvf. congruence. Qed.

Lemma sampling_then_scale_probe width height video_file :
  sampling_then_scale width height (probe_event video_file).
Proof. by apply sampling_then_scale_other. Qed.

Lemma sampling_then_scale_fast width height video_file output_dir sampling
    check out err :
  is_sampling sampling ->
  sampling_then_scale width height
    (Run (fast_command video_file output_dir (sampling +:+ scale_args width height))
       check out err).
Proof.
  intros Hs vf_args Hvf. simpl in Hvf.
  injection Hvf as <-. by exists sampling.
Qed.

Lemma sampling_then_scale_frame width height video_file output_dir i timestamp
    check out err :
  sampling_then_scale width height
    (Run (fallback_command E video_file output_dir width height i timestamp)
       check out err).
Proof.
  intros vf_args Hvf. simpl in Hvf. injection Hvf as <-.
  exists ("select='gte(t\," +:+ repr_float E timestamp +:+ ")',setpts=PTS-STARTPTS").
  split; [right; apply startswith_append | done].
Qed.

Lemma appends_ensure_dir (P : event -> Prop) output_dir :
  P (Makedirs output_dir) -> appends P (ensure_dir output_dir).
Proof.
  intros HP. unfold ensure_dir. apply appends_bind.
  - apply appends_os_path_exists.
  - intros [|]; [apply appends_ret | by apply appends_os_makedirs].
Qed.

Lemma appends_probe_duration (P : event -> Prop) video_file :
  P (probe_event video_file) -> appends P (probe_duration E video_file).
Proof.
  intros HP. unfold probe_duration. apply appends_bind.
  - by apply appends_subprocess_run.
  - intros _. destruct (float_stdout _ _); [apply appends_ret | apply appends_raise].
Qed.

Lemma appends_float_div_int (P : event -> Prop) x n : appends P (float_div_int x n).
Proof.
  intros w. rewrite float_div_int_eq. exists []. simpl.
  by rewrite app_nil_r.
Qed.

Lemma appends_int_mul_float (P : event -> Prop) i x : appends P (int_mul_float i x).
Proof.
  intros w. unfold int_mul_float, bind. rewrite float_of_int_eq.
  exists []. destruct (_ <? _)%Z; simpl; by rewrite app_nil_r.
Qed.

(** The fallback only records the directory, the probe and per-frame calls
    whose events satisfy [P]. *)
Lemma appends_extract_frames_fallback (P : event -> Prop) video_file output_dir
    frame_count silent info width height :
  P (Makedirs output_dir) -> P (probe_event video_file) ->
  (forall i timestamp out err,
     P (Run (fallback_command E video_file output_dir width height i timestamp)
          false out err)) ->
  appends P (extract_frames_fallback E video_file output_dir frame_count
               silent info width height).
Proof.
  intros Hdir Hprobe Hframe. unfold extract_frames_fallback.
  apply appends_bind; [by apply appends_ensure_dir | intros _].
  apply appends_bind; [by apply appends_probe_duration | intros duration].
  apply appends_bind; [apply appends_float_div_int | intros interval].
  apply appends_for_each. intros i. unfold fallback_frame.
  apply appends_bind; [apply appends_int_mul_float | intros timestamp].
  destruct (silent || info);
    (apply appends_bind; [apply appends_subprocess_run, Hframe | intros _; apply appends_ret]).
Qed.

Lemma fast_sampling_returns video_file frame_count time_interval :
  returns is_sampling (fast_sampling E video_file frame_count time_interval).
Proof.
  intros w sampling w' Hrun. rewrite fast_sampling_eq in Hrun.
  destruct (0 <? time_interval)%Z.
  - injection Hrun as <- _. left. apply startswith_append.
  - cbv zeta in Hrun. destruct (float_stdout _ _); [|done].
    destruct (Z.abs frame_count <? float_limit)%Z; [|done].
    destruct (frame_count =? 0)%Z; [done|]. injection Hrun as <- _.
    left. apply startswith_append.
Qed.

Lemma appends_fast_sampling (P : event -> Prop) video_file frame_count time_interval :
  P (probe_event video_file) ->
  appends P (fast_sampling E video_file frame_count time_interval).
Proof.
  intros HP. unfold fast_sampling. destruct (0 <? time_interval)%Z.
  - apply appends_ret.
  - apply appends_bind; [by apply appends_probe_duration | intros duration].
    apply appends_bind; [apply appends_float_div_int | intros interval].
    apply appends_ret.
Qed.

Lemma appends_extract_frames (P : event -> Prop) video_file output_dir
    frame_count time_interval silent info width height :
  P (Makedirs output_dir) -> P (probe_event video_file) ->
  P (Print (fast_notice video_file)) ->
  (forall sampling out err, is_sampling sampling ->
     P (Run (fast_command video_file output_dir
               (sampling +:+ scale_args width height)) true out err)) ->
  (forall i timestamp out err,
     P (Run (fallback_command E video_file output_dir width height i timestamp)
          false out err)) ->
  appends P (extract_frames E video_file output_dir frame_count time_interval
               silent info width height).
Proof.
  intros Hdir Hprobe Hnotice Hfast Hframe. unfold extract_frames.
  apply appends_bind; [by apply appends_ensure_dir | intros _].
  apply appends_try_except.
  - eapply appends_bind_returns;
      [by apply appends_fast_sampling | apply fast_sampling_returns |].
    intros sampling Hs.
    destruct silent; [|destruct info];
      (apply appends_bind;
       [by apply appends_subprocess_run, Hfast | intros _; apply appends_ret]).
  - apply appends_bind.
    + destruct (negb silent && negb info); [by apply appends_emit | apply appends_ret].
    + intros _. by apply appends_extract_frames_fallback.
Qed.

End Scaling.

(** C6. The scaling directive is a function of width and height alone:
    nothing when both are 0, [,scale=W:H] when both are positive,
    [,scale=W:-1] (height follows) when only the width is positive,
    [,scale=-1:H] (width follows) when only the height is positive; and in
    every ffmpeg call of both extractors the filter chain is the sampling
    filter followed by this directive. *)
Theorem scale_directive (E : env) (width height : Z) :
  scale_args 0 0 = ""
  /\ ((0 < width)%Z -> (0 < height)%Z ->
      scale_args width height =
      ",scale=" +:+ Str.fmt_int width +:+ ":" +:+ Str.fmt_int height)
  /\ ((0 < width)%Z -> (height <= 0)%Z ->
      scale_args width height = ",scale=" +:+ Str.fmt_int width +:+ ":-1")
  /\ ((width <= 0)%Z -> (0 < height)%Z ->
      scale_args width height = ",scale=-1:" +:+ Str.fmt_int height)
  /\ scale_args 640 480 = ",scale=640:480"
  /\ scale_args 640 0 = ",scale=640:-1"
  /\ scale_args 0 480 = ",scale=-1:480"
  /\ (forall video_file output_dir frame_count time_interval silent info,
        appends (sampling_then_scale width height)
          (extract_frames E video_file output_dir frame_count time_interval
             silent info width height))
  /\ (forall video_file output_dir frame_count silent info,
        appends (sampling_then_scale width height)
          (extract_frames_fallback E video_file output_dir frame_count
             silent info width height)).
Proof.
  split; [done|]. split; [|split; [|split]].
  - intros Hw Hh. unfold scale_args.
    by rewrite (proj2 (Z.ltb_lt 0 width) Hw), (proj2 (Z.ltb_lt 0 height) Hh).
  - intros Hw Hh. unfold scale_args.
    by rewrite (proj2 (Z.ltb_lt 0 width) Hw), (proj2 (Z.ltb_ge 0 height) Hh).
  - intros Hw Hh. unfold scale_args.
    by rewrite (proj2 (Z.ltb_ge 0 width) Hw), (proj2 (Z.ltb_lt 0 height) Hh).
  - split; [done|]. split; [done|]. split; [done|]. split.
    + intros. apply appends_extract_frames;
        try (by apply sampling_then_scale_other).
      * intros. by apply sampling_then_scale_fast.
      * intros. apply sampling_then_scale_frame.
    + intros. apply appends_extract_frames_fallback;
        try (by apply sampling_then_scale_other).
      intros. apply sampling_then_scale_frame.
Qed.

(** C6 at the sizes of the spec. *)
Lemma scale_directive_witness :
  (0 < 640)%Z /\ (0 < 480)%Z /\ scale_args 640 480 = ",scale=640:480".
Proof.
  split; [lia|]. split; [lia|].
  destruct (scale_directive Demo.healthy 640 480) as (_ & Hboth & _).
  apply Hboth; lia.
Defined.

(** ** Fast path, then fallback *)

Section Retry.

Variable E : env.

Lemma with_dir_trace output_dir w :
  exists evs, trace (with_dir output_dir w) = trace w ++ evs
              /\ Forall (fun e => e = Makedirs output_dir) evs.
Proof.
  unfold with_dir. destruct (bool_decide _); simpl.
  - exists []. by rewrite app_nil_r.
  - exists [Makedirs output_dir]. split; [done | by constructor].
Qed.

Lemma count_with_dir p output_dir w :
  p (Makedirs output_dir) = false ->
  count p (trace (with_dir output_dir w)) = count p (trace w).
Proof.
  intros Hp. destruct (with_dir_trace output_dir w) as (evs & -> & Hevs).
  rewrite count_app, (count_none p evs); [lia|].
  eapply Forall_impl; [exact Hevs | by intros e ->].
Qed.

Lemma is_fast_run_fast_event silent info video_file output_dir vf_args :
  is_fast_run (fast_event silent info (fast_command video_file output_dir vf_args))
  = true.
Proof.
  unfold fast_event. destruct silent; [|destruct info];
    by apply bool_decide_eq_true_2.
Qed.

Lemma is_frame_run_fast_event silent info video_file output_dir vf_args :
  is_frame_run (fast_event silent info (fast_command video_file output_dir vf_args))
  = false.
Proof.
  unfold fast_event. destruct silent; [|destruct info];
    (apply bool_decide_eq_false_2; by intros [_ ?]).
Qed.

Lemma is_fast_run_frame video_file output_dir width height i timestamp check out err :
  is_fast_run
    (Run (fallback_command E video_file output_dir width height i timestamp)
       check out err) = false.
Proof. apply bool_decide_eq_false_2. by intros [_ ?]. Qed.

Lemma is_frame_run_fallback_event video_file output_dir silent info width height
    i timestamp :
  is_frame_run
    (fallback_event E video_file output_dir silent info width height i timestamp)
  = true.
Proof.
  unfold fallback_event. destruct (silent || info);
    by apply bool_decide_eq_true_2.
Qed.

Lemma is_frame_run_probe video_file : is_frame_run (probe_event video_file) = false.
Proof. apply bool_decide_eq_false_2. by intros [? _]. Qed.

Lemma is_fast_run_probe video_file : is_fast_run (probe_event video_file) = false.
Proof. apply bool_decide_eq_false_2. by intros [? _]. Qed.

Lemma count_notice p silent info video_file :
  p (Print (fast_notice video_file)) = false ->
  count p (notice silent info video_file) = 0%nat.
Proof.
  intros Hp. apply count_none. unfold notice.
  destruct (negb silent && negb info); by repeat constructor.
Qed.

(** The fallback never issues the command line of the fast path. *)
Lemma fallback_no_fast_run video_file output_dir frame_count silent info
    width height w :
  count is_fast_run
    (trace (snd (extract_frames_fallback E video_file output_dir frame_count
                   silent info width height w)))
  = count is_fast_run (trace w).
Proof.
  destruct (appends_extract_frames_fallback E (fun e => is_fast_run e = false)
              video_file output_dir frame_count silent info width height)
    with (w := w) as (evs & -> & Hevs); [done | done | | ].
  - intros. apply is_fast_run_frame.
  - rewrite count_app, (count_none _ evs); [lia | done].
Qed.

(** The sampling filter is computed without an exception when the interval
    is active, or the probe gives a number and the count converts to a float
    and is not 0. *)
Lemma fast_sampling_ok video_file frame_count time_interval w :
  ((0 < time_interval)%Z \/
   exists d, float_stdout E (ffprobe_command video_file) = Some d
             /\ frame_count <> 0%Z /\ converts frame_count) ->
  exists sampling before,
    fast_sampling E video_file frame_count time_interval w
      = (Ok sampling, log before w)
    /\ Forall (fun e => e = probe_event video_file) before.
Proof.
  intros Hok. rewrite fast_sampling_eq.
  destruct (0 <? time_interval)%Z eqn:Ht.
  - eexists _, []. rewrite log_nil. by split.
  - destruct Hok as [Hpos | (d & Hd & Hn & Hfits)]; [lia|].
    cbv zeta. rewrite Hd, (converts_ltb _ Hfits).
    rewrite (proj2 (Z.eqb_neq frame_count 0) Hn).
    eexists _, [_]. split; [done | by repeat constructor].
Qed.

End Retry.

(** C5, as the code has it.  For every file whose sampling filter is
    computed without an exception (the interval is positive, or the probe
    yields a number and the count is not 0 and not too large to convert to
    a float), the fast command is run exactly once; when it exits with
    status 0 nothing else happens; when it exits with another status the
    fallback is entered once, from the world the fast attempt left, and it
    never runs the fast command again. *)
Theorem fast_once_then_fallback (E : env) (video_file output_dir : string)
    (frame_count time_interval : Z) (silent info : bool) (width height : Z)
    (w : world) :
  ((0 < time_interval)%Z \/
   exists d, float_stdout E (ffprobe_command video_file) = Some d
             /\ frame_count <> 0%Z /\ converts frame_count) ->
  let run :=
    extract_frames E video_file output_dir frame_count time_interval
      silent info width height w in
  exists (cmd : list string) (w2 : world),
    is_fast_run (fast_event silent info cmd) = true
    /\ (exists before,
          trace w2 = trace w ++ before ++ [fast_event silent info cmd]
          /\ count is_fast_run before = 0%nat
          /\ count is_frame_run before = 0%nat)
    /\ run =
       (if (returncode E cmd =? 0)%Z then (Ok tt, w2)
        else extract_frames_fallback E video_file output_dir frame_count
               silent info width height
               (log (notice silent info video_file) w2))
    /\ count is_fast_run (trace (snd run)) = S (count is_fast_run (trace w))
    /\ (returncode E cmd = 0%Z ->
        count is_frame_run (trace (snd run)) = count is_frame_run (trace w)).
Proof.
  intros Hok run.
  destruct (fast_sampling_ok E video_file frame_count time_interval
              (with_dir output_dir w) Hok) as (sampling & before & Hs & Hbefore).
  pose proof (extract_frames_eq E video_file output_dir frame_count
                time_interval silent info width height w sampling _ Hs) as Hrun.
  simpl in Hrun. fold run in Hrun.
  set (cmd := fast_command video_file output_dir
                (sampling +:+ scale_args width height)) in *.
  set (w2 := log [fast_event silent info cmd] (log before (with_dir output_dir w))) in *.
  assert (is_fast_run (fast_event silent info cmd) = true) as Hfe
    by apply is_fast_run_fast_event.
  assert (is_frame_run (fast_event silent info cmd) = false) as Hfr
    by apply is_frame_run_fast_event.
  destruct (with_dir_trace output_dir w) as (dirs & Hdirs & Hdirs_all).
  assert (trace w2 = trace w ++ (dirs ++ before) ++ [fast_event silent info cmd])
    as Htrace.
  { unfold w2. simpl. rewrite Hdirs. by rewrite <- !app_assoc. }
  assert (count is_fast_run (dirs ++ before) = 0%nat) as Hfast0.
  { apply count_none, Forall_app. split.
    - eapply Forall_impl; [exact Hdirs_all | by intros e ->].
    - eapply Forall_impl; [exact Hbefore | by intros e ->]. }
  assert (count is_frame_run (dirs ++ before) = 0%nat) as Hframe0.
  { apply count_none, Forall_app. split.
    - eapply Forall_impl; [exact Hdirs_all | by intros e ->].
    - eapply Forall_impl; [exact Hbefore | by intros e ->]. }
  assert (count is_fast_run (trace w2) = S (count is_fast_run (trace w))) as Hone.
  { rewrite Htrace, count_app, (count_app _ (dirs ++ before)), Hfast0.
    rewrite count_one, Hfe. lia. }
  exists cmd, w2. split; [exact Hfe|].
  split; [by exists (dirs ++ before)|]. split; [exact Hrun|]. split.
  - rewrite Hrun. destruct (returncode E cmd =? 0)%Z; simpl; [done|].
    rewrite fallback_no_fast_run. simpl.
    rewrite count_app, count_notice by done. rewrite Nat.add_0_r. exact Hone.
  - intros Hrc. rewrite Hrun, Hrc, Z.eqb_refl. unfold snd.
    rewrite Htrace, count_app, (count_app _ (dirs ++ before)), Hframe0.
    rewrite count_one, Hfr. lia.
Qed.

(** C5 at a file whose fast command fails under an interval of two
    seconds. *)
Lemma fast_once_then_fallback_witness :
  (0 < 2)%Z /\
  count is_fast_run
    (trace (snd (extract_frames Demo.failing "./a.mp4" "./a_frames" 16 2
                   false false 0 0 Demo.w0))) = 1%nat.
Proof.
  split; [lia|].
  destruct (fast_once_then_fallback Demo.failing "./a.mp4" "./a_frames" 16 2
              false false 0 0 Demo.w0) as (cmd & w2 & _ & _ & _ & Hcount & _);
    [left; lia | exact Hcount].
Defined.

(** C5 as the spec words it fails: a file whose probe prints nothing
    numeric is processed under the default count policy, and the fast
    command is never run for it; nor is it run for a sound file under a
    count of [10 ^ 309]. *)
Lemma fast_not_attempted_counterexample :
  let run :=
    process_file Demo.unprobed "./a.mp4" false false 16 0 false false 0 0 Demo.w0 in
  let large :=
    process_file Demo.healthy "./a.mp4" false false (10 ^ 309) 0 false false
      0 0 Demo.w0 in
  fst run = Raise ValueError
  /\ count is_fast_run (trace (snd run)) = 0%nat
  /\ count is_fast_run (trace (snd run)) <> 1%nat
  /\ fst large = Raise OverflowError
  /\ count is_fast_run (trace (snd large)) = 0%nat.
Proof. vm_compute. by repeat split. Qed.

(** ** The fallback under an interval policy *)

Section IntervalFallback.

Variable E : env.

Lemma count_frame_events video_file output_dir silent info width height
    duration frame_count :
  count is_frame_run
    (zip_with (fallback_event E video_file output_dir silent info width height)
       (range frame_count) (fallback_timestamps duration frame_count))
  = Z.to_nat frame_count.
Proof.
  unfold fallback_timestamps. rewrite zip_with_timestamps.
  rewrite count_all, length_map, range_length; [done|].
  apply Forall_map, Forall_forall. intros i _.
  apply is_frame_run_fallback_event.
Qed.

Lemma with_dir_present output_dir w :
  output_dir ∈ fs w -> with_dir output_dir w = w.
Proof. intros Hin. unfold with_dir. by rewrite bool_decide_eq_true_2. Qed.

Lemma with_dir_elem output_dir w : output_dir ∈ fs (with_dir output_dir w).
Proof.
  unfold with_dir. destruct (bool_decide _) eqn:Hin; simpl.
  - by apply bool_decide_eq_true_1 in Hin.
  - set_solver.
Qed.

End IntervalFallback.

(** C3, on the code.  When the fast command fails under an interval
    policy, the fallback probes the duration again and then visits the
    timestamps of the count it was handed (a count that converts to a
    float, as the 16 that [main] lets through with an interval does):
    [frame_count] calls, one per timestamp [i * (duration / frame_count)].
    The interval, which the fast path and the help text of [-T] go by,
    plays no part in it. *)
Theorem fallback_count_under_interval (E : env) (video_file output_dir : string)
    (frame_count time_interval : Z) (silent info : bool) (width height : Z)
    (d : float) (w : world) :
  (0 < time_interval)%Z ->
  returncode E
    (fast_command video_file output_dir
       (("fps=1/" +:+ Str.fmt_int time_interval) +:+ scale_args width height))
    <> 0%Z ->
  float_stdout E (ffprobe_command video_file) = Some d ->
  frame_count <> 0%Z -> converts frame_count ->
  let cmd :=
    fast_command video_file output_dir
      (("fps=1/" +:+ Str.fmt_int time_interval) +:+ scale_args width height) in
  let failed :=
    log (notice silent info video_file)
      (log [fast_event silent info cmd] (with_dir output_dir w)) in
  let run :=
    extract_frames E video_file output_dir frame_count time_interval
      silent info width height w in
  run =
    (Ok tt,
     log (zip_with (fallback_event E video_file output_dir silent info width height)
            (range frame_count) (fallback_timestamps d frame_count))
       (log [probe_event video_file] failed))
  /\ count is_frame_run (trace (snd run))
     = (count is_frame_run (trace w) + Z.to_nat frame_count)%nat.
Proof.
  intros Ht Hrc Hd Hn Hfits cmd failed run.
  assert (run =
    (Ok tt,
     log (zip_with (fallback_event E video_file output_dir silent info width height)
            (range frame_count) (fallback_timestamps d frame_count))
       (log [probe_event video_file] failed))) as Hrun.
  { assert (fast_sampling E video_file frame_count time_interval
              (with_dir output_dir w)
            = (Ok ("fps=1/" +:+ Str.fmt_int time_interval), with_dir output_dir w))
      as Hs.
    { rewrite fast_sampling_eq. by rewrite (proj2 (Z.ltb_lt 0 time_interval) Ht). }
    pose proof (extract_frames_eq E video_file output_dir frame_count
                  time_interval silent info width height w _ _ Hs) as Heq.
    cbv zeta in Heq. unfold run. rewrite Heq.
    rewrite (proj2 (Z.eqb_neq _ 0) Hrc).
    rewrite extract_frames_fallback_eq, Hd, (converts_ltb _ Hfits),
      (proj2 (Z.eqb_neq _ 0) Hn).
    cbv zeta. unfold failed.
    rewrite with_dir_present; [done | apply with_dir_elem]. }
  split; [exact Hrun|]. rewrite Hrun. unfold snd, failed, cmd.
  rewrite !trace_log, !count_app, count_with_dir by done.
  rewrite count_frame_events, !count_one, count_notice by done.
  rewrite is_frame_run_fast_event, is_frame_run_probe. lia.
Qed.

(** C3 at an interval of two seconds, ten seconds of video and the default
    count. *)
Lemma fallback_count_under_interval_witness :
  (0 < 2)%Z /\
  count is_frame_run
    (trace (snd (extract_frames Demo.failing "./a.mp4" "./a_frames" 16 2
                   false false 0 0 Demo.w0))) = 16%nat.
Proof.
  split; [lia|].
  destruct (fallback_count_under_interval Demo.failing "./a.mp4" "./a_frames"
              16 2 false false 0 0 Demo.ten Demo.w0) as [_ Hcount];
    [lia | done | done | lia | by vm_compute | exact Hcount].
Defined.

(** An interval of two seconds and a probed duration of ten seconds: the
    fast path samples every two seconds, the fallback makes 16 calls (the
    count it was handed), not the [ceil(10 / 2) = 5] of one frame every two
    seconds. *)
Lemma interval_fallback_counterexample :
  let run :=
    extract_frames Demo.failing "./a.mp4" "./a_frames" 16 2 false false 0 0
      Demo.w0 in
  fst run = Ok tt
  /\ count is_frame_run (trace (snd run)) = 16%nat
  /\ Qceiling (10 / 2)%Q = 5%Z
  /\ count is_frame_run (trace (snd run))
     <> Z.to_nat (Qceiling (10 / 2)%Q).
Proof. vm_compute. by repeat split. Qed.

(** ** Files and batches *)

Section Batch.

Variable E : env.

Lemma bind_ext {A B} (m m' : M A) (k k' : A -> M B) :
  (forall w, m w = m' w) -> (forall a w, k a w = k' a w) ->
  forall w, bind m k w = bind m' k' w.
Proof.
  intros Hm Hk w. unfold bind. rewrite Hm.
  destruct (m' w) as [[a| e |] w1]; [apply Hk | done | done].
Qed.

Lemma bind_assoc {A B C} (m : M A) (k : A -> M B) (h : B -> M C) w :
  bind (bind m k) h w = bind m (fun a => bind (k a) h) w.
Proof. unfold bind. by destruct (m w) as [[a| e |] w1]. Qed.

Lemma for_each_ext {A} (l : list A) (body body' : A -> M unit) :
  (forall x w, body x w = body' x w) ->
  forall w, for_each l body w = for_each l body' w.
Proof.
  intros Hb. induction l as [|x l IH]; intros w; simpl; [done|].
  apply bind_ext; [apply Hb | intros _; apply IH].
Qed.

Lemma for_each_app {A} (l1 l2 : list A) (body : A -> M unit) w :
  for_each (l1 ++ l2) body w = (for_each l1 body ;; for_each l2 body) w.
Proof.
  revert w. induction l1 as [|x l1 IH]; intros w; simpl; [done|].
  rewrite bind_assoc. apply bind_ext; [done | intros _ w1; apply IH].
Qed.

Lemma for_each_map {A B} (g : A -> B) (l : list A) (body : B -> M unit) w :
  for_each (map g l) body w = for_each l (fun x => body (g x)) w.
Proof.
  revert w. induction l as [|x l IH]; intros w; simpl; [done|].
  apply bind_ext; [done | intros _ w1; apply IH].
Qed.

(** A loop stops at the first iteration that raises. *)
Lemma for_each_raise {A} (pre post : list A) (x : A) (body : A -> M unit)
    w w1 w2 e :
  for_each pre body w = (Ok tt, w1) ->
  body x w1 = (Raise e, w2) ->
  for_each (pre ++ x :: post) body w = (Raise e, w2).
Proof.
  intros Hpre Hx. rewrite for_each_app. unfold bind at 1. rewrite Hpre.
  simpl. unfold bind. by rewrite Hx.
Qed.

(** A loop goes on after an iteration that returns. *)
Lemma for_each_next {A} (x : A) (rest : list A) (body : A -> M unit) w :
  fst (body x w) = Ok tt ->
  for_each (x :: rest) body w = for_each rest body (snd (body x w)).
Proof.
  intros Hx. simpl. unfold bind.
  destruct (body x w) as [r w']; simpl in *. by subst r.
Qed.

Lemma for_each_through {A} (pre post : list A) (x : A) (body : A -> M unit)
    w w1 :
  for_each pre body w = (Ok tt, w1) ->
  fst (body x w1) = Ok tt ->
  for_each (pre ++ x :: post) body w = for_each post body (snd (body x w1)).
Proof.
  intros Hpre Hx. rewrite for_each_app. unfold bind at 1. rewrite Hpre.
  by apply for_each_next.
Qed.

(** Both traversals are one pass of [process_file] over the visited
    paths. *)
Lemma process_folder_recursive folder silent info frame_count time_interval
    prompt same_dir width height w :
  process_folder E folder true silent info frame_count time_interval prompt
    same_dir width height w
  = for_each (walked_files E folder)
      (fun path =>
         process_file E path silent info frame_count time_interval prompt
           same_dir width height) w.
Proof.
  unfold process_folder, walked_files.
  revert w. induction (os_walk E folder) as [|[root files] walk IH]; intros w;
    simpl; [done|].
  rewrite for_each_app. apply bind_ext; [|intros _ w1; apply IH].
  intros w1. by rewrite for_each_map.
Qed.

Lemma process_folder_visited folder recursive silent info frame_count
    time_interval prompt same_dir width height w :
  process_folder E folder recursive silent info frame_count time_interval
    prompt same_dir width height w
  = match visited E folder recursive with
    | Some paths =>
        for_each paths
          (fun path =>
             process_file E path silent info frame_count time_interval prompt
               same_dir width height) w
    | None => (Raise OSError, w)
    end.
Proof.
  destruct recursive; [apply process_folder_recursive|].
  unfold process_folder, visited.
  destruct (os_listdir E folder) as [names|]; simpl; [|done].
  by rewrite for_each_map.
Qed.

Lemma allocate_output_dir_returns video_file w :
  exists output_dir, allocate_output_dir video_file w = (Ok output_dir, w).
Proof.
  destruct (unique_folder_loop_spec (frames_dir video_file) w
              (size (fs w)) 0 (fs w)) as (k & _ & Hrun & _); [done | done |].
  by exists (candidate (frames_dir video_file) k).
Qed.

(** [process_file] on a video, without prompting: the progress line, the
    choice of the folder, then [extract_frames]. *)
Lemma process_file_unprompted video_file silent info frame_count time_interval
    same_dir width height w :
  Str.endswith_any video_file video_extensions = true ->
  exists output_dir,
    process_file E video_file silent info frame_count time_interval false
      same_dir width height w
    = extract_frames E video_file output_dir frame_count time_interval
        silent info width height (log (progress silent info video_file) w).
Proof.
  intros Hext. unfold process_file. rewrite Hext.
  assert (forall out,
    (do output_dir <- ret out;
     extract_frames E video_file output_dir frame_count time_interval
       silent info width height) (log (progress silent info video_file) w)
    = extract_frames E video_file out frame_count time_interval
        silent info width height (log (progress silent info video_file) w))
    as Hret by done.
  assert (((if negb silent && info then print ("Processing: " +:+ video_file)
            else ret tt) : M unit) w
          = (Ok tt, log (progress silent info video_file) w)) as Hprogress.
  { unfold progress. destruct (negb silent && info); [done|].
    by rewrite log_nil. }
  destruct same_dir.
  - exists (os_path.dirname video_file).
    unfold bind at 1. unfold ret at 1. unfold bind at 1. by rewrite Hprogress.
  - destruct (allocate_output_dir_returns video_file
                (log (progress silent info video_file) w)) as (out & Hout).
    exists out. unfold bind at 1. unfold ret at 1. unfold bind at 1.
    rewrite Hprogress. unfold bind at 1. by rewrite Hout.
Qed.

(** [process_file] on a video, with the question: the three ways the
    answer is taken. *)
Lemma process_file_asks video_file silent info frame_count time_interval
    same_dir width height w answer rest :
  Str.endswith_any video_file video_extensions = true ->
  stdin w = answer :: rest ->
  process_file E video_file silent info frame_count time_interval true
    same_dir width height w
  = let response := Str.lower (Str.strip answer) in
    if String.eqb response "n" then (Ok tt, asked video_file rest w)
    else if String.eqb response "a" then
      (Raise (SystemExit 0),
       log [Print "Process aborted."] (asked video_file rest w))
    else
      process_file E video_file silent info frame_count time_interval false
        same_dir width height (asked video_file rest w).
Proof.
  intros Hext Hin. unfold process_file. rewrite Hext. cbv zeta.
  unfold bind at 1. unfold bind at 1. unfold input. rewrite Hin.
  fold (question video_file). fold (asked video_file rest w).
  destruct (String.eqb (Str.lower (Str.strip answer)) "n"); [done|].
  destruct (String.eqb (Str.lower (Str.strip answer)) "a"); done.
Qed.

(** [process_file] on a video that gets as far as the extraction. *)
Lemma process_file_proceeds video_file silent info frame_count time_interval
    prompt same_dir width height w w' :
  Str.endswith_any video_file video_extensions = true ->
  proceeds prompt video_file w w' ->
  exists output_dir,
    process_file E video_file silent info frame_count time_interval prompt
      same_dir width height w
    = extract_frames E video_file output_dir frame_count time_interval
        silent info width height (log (progress silent info video_file) w').
Proof.
  intros Hext Hgo. destruct prompt; simpl in Hgo.
  - destruct Hgo as (answer & rest & Hin & Hn & Ha & ->).
    rewrite (process_file_asks _ _ _ _ _ _ _ _ _ _ _ Hext Hin). cbv zeta.
    rewrite (proj2 (String.eqb_neq _ _) Hn), (proj2 (String.eqb_neq _ _) Ha).
    by apply process_file_unprompted.
  - subst w'. by apply process_file_unprompted.
Qed.

(** With a numeric probe and a count other than 0 that converts to a
    float, [extract_frames] returns normally, whatever the exit statuses. *)
Lemma extract_frames_returns video_file output_dir frame_count time_interval
    silent info width height w d :
  float_stdout E (ffprobe_command video_file) = Some d ->
  frame_count <> 0%Z -> converts frame_count ->
  fst (extract_frames E video_file output_dir frame_count time_interval
         silent info width height w) = Ok tt.
Proof.
  intros Hd Hn Hfits.
  destruct (fast_sampling_ok E video_file frame_count time_interval
              (with_dir output_dir w)) as (sampling & before & Hs & _);
    [right; by exists d|].
  pose proof (extract_frames_eq E video_file output_dir frame_count
                time_interval silent info width height w _ _ Hs) as Heq.
  cbv zeta in Heq. rewrite Heq. destruct (_ =? 0)%Z; [done|].
  rewrite extract_frames_fallback_eq, Hd, (converts_ltb _ Hfits),
    (proj2 (Z.eqb_neq _ 0) Hn). done.
Qed.

(** With no number from the probe and no interval, [extract_frames] ends in
    [ValueError] right after the probe. *)
Lemma extract_frames_unprobed video_file output_dir frame_count time_interval
    silent info width height w :
  (time_interval <= 0)%Z ->
  float_stdout E (ffprobe_command video_file) = None ->
  extract_frames E video_file output_dir frame_count time_interval
    silent info width height w
  = (Raise ValueError, log [probe_event video_file] (with_dir output_dir w)).
Proof.
  intros Ht Hd. apply extract_frames_raise.
  rewrite fast_sampling_eq, (proj2 (Z.ltb_ge 0 time_interval) Ht). cbv zeta.
  by rewrite Hd.
Qed.

(** With a count of 0 and no interval, [extract_frames] ends in
    [ZeroDivisionError] right after the probe. *)
Lemma extract_frames_zero_count video_file output_dir time_interval
    silent info width height w d :
  (time_interval <= 0)%Z ->
  float_stdout E (ffprobe_command video_file) = Some d ->
  extract_frames E video_file output_dir 0 time_interval
    silent info width height w
  = (Raise ZeroDivisionError,
     log [probe_event video_file] (with_dir output_dir w)).
Proof.
  intros Ht Hd. apply extract_frames_raise.
  rewrite fast_sampling_eq, (proj2 (Z.ltb_ge 0 time_interval) Ht). cbv zeta.
  by rewrite Hd.
Qed.

Lemma check_ffmpeg_ok w :
  returncode E ["ffmpeg"; "-version"] = 0%Z ->
  check_ffmpeg E w = (Ok tt, log [Run ["ffmpeg"; "-version"] true PIPE PIPE] w).
Proof.
  intros Hrc. unfold check_ffmpeg, try_except, bind.
  rewrite subprocess_run_eq, Hrc. done.
Qed.

(** [main] once the command line is accepted, ffmpeg is there, no help is
    asked for and the switch test lets the run through. *)
Lemma main_processes (c : cli) w :
  returncode E ["ffmpeg"; "-version"] = 0%Z ->
  cli_H c = false ->
  args_N (parse_args c) = 16%Z \/ args_T (parse_args c) = 0%Z ->
  main E (Accepted c) w =
  process_folder E (args_source (parse_args c)) (args_R (parse_args c))
    (args_S (parse_args c)) (args_I (parse_args c)) (args_N (parse_args c))
    (args_T (parse_args c)) (args_P (parse_args c)) (args_D (parse_args c))
    (args_X (parse_args c)) (args_Y (parse_args c))
    (log [Run ["ffmpeg"; "-version"] true PIPE PIPE] w).
Proof.
  intros Hrc Hh Hpass. unfold main, bind. rewrite check_ffmpeg_ok by done.
  change (args_help (parse_args c)) with (cli_H c). rewrite Hh.
  destruct Hpass as [-> | ->]; [done|]. by rewrite andb_false_r.
Qed.

(** A probe that is no number, under the count policy, ends the traversal
    at that file. *)
Lemma process_folder_unprobed folder recursive silent info frame_count
    time_interval prompt same_dir width height pre post path w w1 w1' :
  visited E folder recursive = Some (pre ++ path :: post) ->
  (time_interval <= 0)%Z ->
  Str.endswith_any path video_extensions = true ->
  float_stdout E (ffprobe_command path) = None ->
  for_each pre
    (fun p => process_file E p silent info frame_count time_interval prompt
                same_dir width height) w = (Ok tt, w1) ->
  proceeds prompt path w1 w1' ->
  exists output_dir,
    process_folder E folder recursive silent info frame_count time_interval
      prompt same_dir width height w
    = (Raise ValueError,
       log [probe_event path]
         (with_dir output_dir (log (progress silent info path) w1'))).
Proof.
  intros Hvisit Ht Hext Hd Hpre Hgo.
  destruct (process_file_proceeds path silent info frame_count time_interval
              prompt same_dir width height w1 w1' Hext Hgo)
    as (output_dir & Hfile).
  rewrite extract_frames_unprobed in Hfile by done.
  exists output_dir. rewrite process_folder_visited, Hvisit.
  by apply (for_each_raise pre post path _ w w1).
Qed.

End Batch.

(** C4, as the code has it.  When the duration of a file cannot be
    determined under the count policy, [float] raises [ValueError], which
    nothing catches, in neither traversal and with or without [-P]: the
    run of [main] ends at that file with the exception (exit status 1),
    the files after it are not processed, and the script prints nothing
    about the failure. *)
Theorem probe_failure_aborts_batch (E : env) (c : cli)
    (pre post : list string) (path : string) (w w1 w1' : world) :
  let a := parse_args c in
  returncode E ["ffmpeg"; "-version"] = 0%Z ->
  cli_H c = false ->
  args_N a = 16%Z \/ args_T a = 0%Z ->
  (args_T a <= 0)%Z ->
  visited E (args_source a) (args_R a) = Some (pre ++ path :: post) ->
  Str.endswith_any path video_extensions = true ->
  float_stdout E (ffprobe_command path) = None ->
  for_each pre
    (fun p => process_file E p (args_S a) (args_I a) (args_N a) (args_T a)
                (args_P a) (args_D a) (args_X a) (args_Y a))
    (log [Run ["ffmpeg"; "-version"] true PIPE PIPE] w) = (Ok tt, w1) ->
  proceeds (args_P a) path w1 w1' ->
  let run := main E (Accepted c) w in
  exit_status (fst run) = Some 1%Z
  /\ exists output_dir,
       run =
       (Raise ValueError,
        log [probe_event path]
          (with_dir output_dir
             (log (progress (args_S a) (args_I a) path) w1'))).
Proof.
  intros a Hrc Hh Hpass Ht Hvisit Hext Hd Hpre Hgo run.
  destruct (process_folder_unprobed E (args_source a) (args_R a) (args_S a)
              (args_I a) (args_N a) (args_T a) (args_P a) (args_D a)
              (args_X a) (args_Y a) pre post path _ w1 w1'
              Hvisit Ht Hext Hd Hpre Hgo) as (output_dir & Hfolder).
  assert (run =
    (Raise ValueError,
     log [probe_event path]
       (with_dir output_dir
          (log (progress (args_S a) (args_I a) path) w1')))) as Hrun.
  { unfold run. rewrite (main_processes E c w Hrc Hh Hpass). exact Hfolder. }
  split; [by rewrite Hrun | by exists output_dir].
Qed.

(** C4 at a folder whose first video cannot be probed. *)
Lemma probe_failure_aborts_batch_witness :
  returncode Demo.unprobed ["ffmpeg"; "-version"] = 0%Z
  /\ (args_T (parse_args Demo.no_switch) <= 0)%Z
  /\ fst (main Demo.unprobed (Accepted Demo.no_switch) Demo.w0)
     = Raise ValueError.
Proof.
  split; [done|]. split; [done|].
  destruct (probe_failure_aborts_batch Demo.unprobed Demo.no_switch
              [] ["./b.mp4"] "./a.mp4" Demo.w0
              (log [Run ["ffmpeg"; "-version"] true PIPE PIPE] Demo.w0)
              (log [Run ["ffmpeg"; "-version"] true PIPE PIPE] Demo.w0))
    as [_ (output_dir & Hrun)];
    [done | done | by left | done | done | done | done | done | done |].
  by rewrite Hrun.
Defined.

(** C4 as the spec words it fails: the probe of [./a.mp4] prints nothing
    numeric, [./b.mp4] is sound; the run ends with [ValueError] after the
    probe of the first file, the second file is never touched and nothing is
    printed. *)
Lemma probe_failure_counterexample :
  let run := main Demo.unprobed (Accepted Demo.no_switch) Demo.w0 in
  fst run = Raise ValueError
  /\ exit_status (fst run) = Some 1%Z
  /\ trace (snd run) =
     [Run ["ffmpeg"; "-version"] true PIPE PIPE;
      Makedirs "./a_frames";
      probe_event "./a.mp4"]
  /\ count is_print (trace (snd run)) = 0%nat.
Proof. vm_compute. by repeat split. Qed.

(** ** Exit statuses of the per-frame calls *)

Section FrameStatuses.

Variable E : env.
Variable rc' : list string -> Z.

(** The two environments agree except, possibly, on the exit status of the
    per-frame command lines of the fallback. *)
Hypothesis same_elsewhere :
  forall cmd, cmd !! 5%nat <> Some "-vframes" -> rc' cmd = returncode E cmd.

Lemma fallback_agree video_file output_dir frame_count silent info width height w :
  extract_frames_fallback (with_returncode rc' E) video_file output_dir
    frame_count silent info width height w
  = extract_frames_fallback E video_file output_dir frame_count silent info
      width height w.
Proof. by rewrite !extract_frames_fallback_eq. Qed.

Lemma fast_sampling_agree video_file frame_count time_interval w :
  fast_sampling (with_returncode rc' E) video_file frame_count time_interval w
  = fast_sampling E video_file frame_count time_interval w.
Proof. by rewrite !fast_sampling_eq. Qed.

Lemma extract_frames_agree video_file output_dir frame_count time_interval
    silent info width height w :
  extract_frames (with_returncode rc' E) video_file output_dir frame_count
    time_interval silent info width height w
  = extract_frames E video_file output_dir frame_count time_interval
      silent info width height w.
Proof.
  destruct (fast_sampling E video_file frame_count time_interval
              (with_dir output_dir w)) as [[sampling| e |] w1] eqn:Hs.
  - pose proof Hs as Hs'. rewrite <- fast_sampling_agree in Hs'.
    pose proof (extract_frames_eq E video_file output_dir frame_count
                  time_interval silent info width height w _ _ Hs) as Heq.
    pose proof (extract_frames_eq (with_returncode rc' E) video_file output_dir
                  frame_count time_interval silent info width height w _ _ Hs')
      as Heq'.
    cbv zeta in Heq, Heq'. rewrite Heq, Heq', fallback_agree.
    simpl returncode. by rewrite same_elsewhere.
  - pose proof Hs as Hs'. rewrite <- fast_sampling_agree in Hs'.
    by rewrite (extract_frames_raise _ _ _ _ _ _ _ _ _ _ _ _ Hs),
               (extract_frames_raise _ _ _ _ _ _ _ _ _ _ _ _ Hs').
  - rewrite fast_sampling_eq in Hs. destruct (0 <? time_interval)%Z; [done|].
    cbv zeta in Hs. destruct (float_stdout _ _); [|done].
    destruct (Z.abs frame_count <? float_limit)%Z; [|done].
    by destruct (frame_count =? 0)%Z.
Qed.

Lemma process_file_agree video_file silent info frame_count time_interval
    prompt same_dir width height w :
  process_file (with_returncode rc' E) video_file silent info frame_count
    time_interval prompt same_dir width height w
  = process_file E video_file silent info frame_count time_interval prompt
      same_dir width height w.
Proof.
  unfold process_file. destruct (Str.endswith_any _ _); [|done].
  apply bind_ext; [done|]. intros [|] w1; [|done].
  apply bind_ext; [done|]. intros _ w2.
  apply bind_ext; [done|]. intros output_dir w3.
  apply extract_frames_agree.
Qed.

Lemma process_folder_agree folder recursive silent info frame_count
    time_interval prompt same_dir width height w :
  process_folder (with_returncode rc' E) folder recursive silent info
    frame_count time_interval prompt same_dir width height w
  = process_folder E folder recursive silent info frame_count time_interval
      prompt same_dir width height w.
Proof.
  rewrite !process_folder_visited.
  change (visited (with_returncode rc' E) folder recursive)
    with (visited E folder recursive).
  destruct (visited E folder recursive) as [paths|]; [|done].
  apply for_each_ext. intros path w1. apply process_file_agree.
Qed.

Lemma main_agree line w : main (with_returncode rc' E) line w = main E line w.
Proof.
  destruct line as [|c]; [done|]. unfold main. apply bind_ext.
  - intros w1. unfold check_ffmpeg, try_except, bind.
    rewrite !subprocess_run_eq. simpl returncode. by rewrite same_elsewhere.
  - intros _ w1. destruct (args_help _); [done|].
    destruct (_ && _); [done|]. apply process_folder_agree.
Qed.

Lemma is_print_fallback_event video_file output_dir silent info width height
    i timestamp :
  is_print
    (fallback_event E video_file output_dir silent info width height i timestamp)
  = false.
Proof. unfold fallback_event. by destruct (silent || info). Qed.

Lemma fallback_prints_nothing video_file output_dir frame_count silent info
    width height w :
  count is_print
    (trace (snd (extract_frames_fallback E video_file output_dir frame_count
                   silent info width height w)))
  = count is_print (trace w).
Proof.
  destruct (appends_extract_frames_fallback E (fun e => is_print e = false)
              video_file output_dir frame_count silent info width height)
    with (w := w) as (evs & -> & Hevs); [done | done | done |].
  rewrite count_app, (count_none _ evs); [lia | done].
Qed.

End FrameStatuses.

(** C9, as the code has it.  The exit statuses of the per-frame calls of
    the fallback are never looked at: a whole run, and every call of
    [process_file], has the same outcome and the same trace (printed lines
    included) whatever those statuses are; the fallback prints nothing; and
    in either traversal, at any place of the batch, with or without the
    question of [-P], a video with a numeric probe that is processed with a
    count other than 0 (and small enough for a float) makes [process_file]
    return normally, so that the batch goes on with the next file.  No
    failure indicator exists. *)
Theorem fallback_failure_unreported (E : env) (rc' : list string -> Z) :
  (forall cmd, cmd !! 5%nat <> Some "-vframes" -> rc' cmd = returncode E cmd) ->
  let E' := with_returncode rc' E in
  (forall line w, main E' line w = main E line w)
  /\ (forall video_file silent info frame_count time_interval prompt same_dir
             width height w,
        process_file E' video_file silent info frame_count time_interval
          prompt same_dir width height w
        = process_file E video_file silent info frame_count time_interval
            prompt same_dir width height w)
  /\ (forall video_file output_dir frame_count silent info width height w,
        count is_print
          (trace (snd (extract_frames_fallback E' video_file output_dir
                         frame_count silent info width height w)))
        = count is_print (trace w))
  /\ (forall folder recursive pre path post silent info frame_count
             time_interval prompt same_dir width height d w w1 w1',
        visited E folder recursive = Some (pre ++ path :: post) ->
        Str.endswith_any path video_extensions = true ->
        float_stdout E (ffprobe_command path) = Some d ->
        frame_count <> 0%Z -> converts frame_count ->
        let body := fun p =>
          process_file E' p silent info frame_count time_interval prompt
            same_dir width height in
        for_each pre body w = (Ok tt, w1) ->
        proceeds prompt path w1 w1' ->
        fst (body path w1) = Ok tt
        /\ process_folder E' folder recursive silent info frame_count
             time_interval prompt same_dir width height w
           = for_each post body (snd (body path w1))).
Proof.
  intros Hrc E'. split; [|split; [|split]].
  - intros. by apply main_agree.
  - intros. by apply process_file_agree.
  - intros. apply fallback_prints_nothing.
  - intros folder recursive pre path post silent info frame_count
      time_interval prompt same_dir width height d w w1 w1'
      Hvisit Hext Hd Hn Hfits body Hpre Hgo.
    assert (fst (body path w1) = Ok tt) as Hok.
    { unfold body.
      destruct (process_file_proceeds E' path silent info frame_count
                  time_interval prompt same_dir width height w1 w1' Hext Hgo)
        as (output_dir & ->).
      by apply (extract_frames_returns E' _ _ _ _ _ _ _ _ _ d). }
    split; [exact Hok|].
    rewrite process_folder_visited.
    change (visited E' folder recursive) with (visited E folder recursive).
    rewrite Hvisit. by apply for_each_through.
Qed.

(** C9 at two environments that differ on the per-frame calls only. *)
Lemma fallback_failure_unreported_witness :
  (forall cmd, cmd !! 5%nat <> Some "-vframes" ->
     (if bool_decide (cmd !! 5%nat = Some "-vframes") then 0%Z
      else returncode Demo.failing cmd) = returncode Demo.failing cmd)
  /\ main
       (with_returncode
          (fun cmd => if bool_decide (cmd !! 5%nat = Some "-vframes") then 0%Z
                      else returncode Demo.failing cmd) Demo.failing)
       (Accepted Demo.no_switch) Demo.w0
     = main Demo.failing (Accepted Demo.no_switch) Demo.w0.
Proof.
  assert (forall cmd, cmd !! 5%nat <> Some "-vframes" ->
     (if bool_decide (cmd !! 5%nat = Some "-vframes") then 0%Z
      else returncode Demo.failing cmd) = returncode Demo.failing cmd) as Hrc.
  { intros cmd Hne. by rewrite bool_decide_eq_false_2. }
  split; [exact Hrc|].
  destruct (fallback_failure_unreported Demo.failing _ Hrc) as [Hmain _].
  apply Hmain.
Defined.

(** C9 as the spec words it fails: every extraction command exits with
    status 1, for the fast path and for each frame of the fallback; the run
    returns normally with exit status 0, both files are gone through, and
    the only lines printed are the two notices that precede the fallbacks. *)
Lemma fallback_failure_counterexample :
  let run := main Demo.failing (Accepted Demo.no_switch) Demo.w0 in
  fst run = Ok tt
  /\ exit_status (fst run) = Some 0%Z
  /\ filter (fun e => is_print e = true) (trace (snd run)) =
     [Print (fast_notice "./a.mp4"); Print (fast_notice "./b.mp4")]
  /\ count is_fast_run (trace (snd run)) = 2%nat
  /\ count is_frame_run (trace (snd run)) = 32%nat
  /\ forallb
       (fun e =>
          match e with
          | Run cmd _ _ _ =>
              negb (is_fast_run e || is_frame_run e)
              || negb (returncode Demo.failing cmd =? 0)%Z
          | _ => true
          end) (trace (snd run)) = true.
Proof. vm_compute. by repeat split. Qed.

(** ** The command line *)

Section CommandLine.

Variable E : env.

(** The switch test of [main]: it fires when the count differs from 16 and
    the interval differs from 0, and then nothing but the message is
    produced. *)
Lemma both_switches_rejected (c : cli) w :
  returncode E ["ffmpeg"; "-version"] = 0%Z ->
  cli_H c = false ->
  args_N (parse_args c) <> 16%Z -> args_T (parse_args c) <> 0%Z ->
  main E (Accepted c) w =
  (Ok tt,
   log [Run ["ffmpeg"; "-version"] true PIPE PIPE; Print only_one_switch] w).
Proof.
  intros Hrc Hh HN HT. unfold main, bind. rewrite check_ffmpeg_ok by done.
  change (args_help (parse_args c)) with (cli_H c). rewrite Hh.
  rewrite (proj2 (Z.eqb_neq _ _) HN), (proj2 (Z.eqb_neq _ _) HT).
  unfold print, emit, log; simpl. by rewrite <- app_assoc.
Qed.

(** With a count of exactly 16 the switch test lets every interval
    through. *)
Lemma count_16_passes (c : cli) w :
  cli_H c = false -> args_N (parse_args c) = 16%Z ->
  main E (Accepted c) w =
  (check_ffmpeg E ;;
   process_folder E (args_source (parse_args c)) (cli_R c) (cli_S c) (cli_I c)
     16 (args_T (parse_args c)) (cli_P c) (cli_D c)
     (args_X (parse_args c)) (args_Y (parse_args c))) w.
Proof.
  intros Hh HN. unfold main. apply bind_ext; [done|]. intros _ w1.
  change (args_help (parse_args c)) with (cli_H c). rewrite Hh, HN. done.
Qed.

Lemma converts_16 : converts 16.
Proof. by vm_compute. Qed.

(** [extract_frames] under the count policy, for a probed duration: the
    probe, the one fast command that samples a frame every
    [duration / frame_count] seconds, and when it fails the notice, the
    second probe and one call per timestamp. *)
Lemma extract_frames_by_count video_file output_dir frame_count silent info
    width height d w :
  float_stdout E (ffprobe_command video_file) = Some d ->
  frame_count <> 0%Z -> converts frame_count ->
  let cmd :=
    fast_command video_file output_dir
      (("fps=1/" +:+ repr_float E (PrimFloat.div d (to_float frame_count)))
       +:+ scale_args width height) in
  let w2 :=
    log [probe_event video_file; fast_event silent info cmd]
      (with_dir output_dir w) in
  extract_frames E video_file output_dir frame_count 0 silent info
    width height w =
  (Ok tt,
   if (returncode E cmd =? 0)%Z then w2
   else
     log (notice silent info video_file ++
          probe_event video_file ::
          zip_with (fallback_event E video_file output_dir silent info width height)
            (range frame_count) (fallback_timestamps d frame_count)) w2).
Proof.
  intros Hd Hn Hfits cmd w2.
  assert (fast_sampling E video_file frame_count 0 (with_dir output_dir w)
          = (Ok ("fps=1/" +:+
                 repr_float E (PrimFloat.div d (to_float frame_count))),
             log [probe_event video_file] (with_dir output_dir w))) as Hs.
  { rewrite fast_sampling_eq. cbv zeta.
    rewrite Hd, (converts_ltb _ Hfits), (proj2 (Z.eqb_neq _ 0) Hn). done. }
  pose proof (extract_frames_eq E video_file output_dir frame_count 0
                silent info width height w _ _ Hs) as Heq.
  cbv zeta in Heq. rewrite Heq. fold cmd.
  assert (log [fast_event silent info cmd]
            (log [probe_event video_file] (with_dir output_dir w)) = w2) as ->
    by (unfold w2; by rewrite log_log).
  destruct (returncode E cmd =? 0)%Z; [done|].
  rewrite extract_frames_fallback_eq, Hd, (converts_ltb _ Hfits),
    (proj2 (Z.eqb_neq _ 0) Hn).
  cbv zeta. rewrite with_dir_present; [|apply with_dir_elem].
  by rewrite !log_log.
Qed.

End CommandLine.

(** C2, on the code: a count of 0 under the count policy.  The help text
    promises that all frames are extracted; the script divides the duration
    by the count and ends with [ZeroDivisionError] (exit status 1) after the
    probe of the first video, no ffmpeg extraction having been started. *)
Theorem zero_count_divides_by_zero :
  let c := Cli None false false false (Some 0%Z) None None None false false false in
  let run := main Demo.healthy (Accepted c) Demo.w0 in
  fst run = Raise ZeroDivisionError
  /\ exit_status (fst run) = Some 1%Z
  /\ trace (snd run) =
     [Run ["ffmpeg"; "-version"] true PIPE PIPE;
      Makedirs "./a_frames";
      probe_event "./a.mp4"]
  /\ count is_fast_run (trace (snd run)) = 0%nat.
Proof. vm_compute. by repeat split. Qed.

(** C8, on the code: [-N 16 -T 5], both switches given.  The switch test
    compares the values with the defaults, finds the count equal to 16 and
    lets the run through: folders are created and ffmpeg is started for
    every video, with the interval as sampling filter. *)
Theorem both_switches_with_count_16_run :
  let c := Cli None false false false (Some 16%Z) (Some 5%Z) None None
             false false false in
  let run := main Demo.healthy (Accepted c) Demo.w0 in
  fst run = Ok tt
  /\ trace (snd run) =
     [Run ["ffmpeg"; "-version"] true PIPE PIPE;
      Makedirs "./a_frames";
      Run ["ffmpeg"; "-i"; "./a.mp4"; "-vf"; "fps=1/5"; "-pix_fmt"; "yuv420p";
           "-q:v"; "2"; "./a_frames/a_%03d.jpg"] true Inherit Inherit;
      Makedirs "./b_frames";
      Run ["ffmpeg"; "-i"; "./b.mp4"; "-vf"; "fps=1/5"; "-pix_fmt"; "yuv420p";
           "-q:v"; "2"; "./b_frames/b_%03d.jpg"] true Inherit Inherit]
  /\ count is_print (trace (snd run)) = 0%nat
  /\ (let c' := Cli None false false false (Some 15%Z) (Some 5%Z) None None
                  false false false in
      main Demo.healthy (Accepted c') Demo.w0 =
      (Ok tt,
       log [Run ["ffmpeg"; "-version"] true PIPE PIPE; Print only_one_switch]
         Demo.w0)).
Proof.
  split; [by vm_compute|]. split; [by vm_compute|]. split; [by vm_compute|].
  by apply both_switches_rejected.
Qed.

(** C10. With neither [-N] nor [-T] on the command line the count is 16 and
    the interval 0, and [main] runs every visited file through
    [process_file] with them; a video that is not skipped at the question
    is handed to [extract_frames] with count 16 and interval 0; there, for
    a probed duration, the one fast command samples a frame every
    [duration / 16] seconds (neither every frame nor a fixed interval), and
    if it fails the fallback makes 16 calls, one per timestamp.  At a
    folder of two ten-second videos the run consists of the ffmpeg test
    and, per video, the folder, the probe and the command with
    [fps=1/0.625]. *)
Theorem default_policy (E : env) (c : cli) (w : world) :
  cli_N c = None -> cli_T c = None -> cli_H c = false ->
  let a := parse_args c in
  let file := fun path =>
    process_file E path (args_S a) (args_I a) 16 0 (args_P a) (args_D a)
      (args_X a) (args_Y a) in
  args_N a = 16%Z
  /\ args_T a = 0%Z
  /\ main E (Accepted c) w =
     (check_ffmpeg E ;;
      fun w1 =>
        match visited E (args_source a) (args_R a) with
        | Some paths => for_each paths file w1
        | None => (Raise OSError, w1)
        end) w
  /\ (forall path w1 w1',
        Str.endswith_any path video_extensions = true ->
        proceeds (args_P a) path w1 w1' ->
        exists output_dir,
          file path w1 =
          extract_frames E path output_dir 16 0 (args_S a) (args_I a)
            (args_X a) (args_Y a)
            (log (progress (args_S a) (args_I a) path) w1'))
  /\ (forall video_file w1,
        fast_sampling E video_file 16 0 w1 =
        (match float_stdout E (ffprobe_command video_file) with
         | Some duration =>
             Ok ("fps=1/" +:+
                 repr_float E (PrimFloat.div duration (to_float 16)))
         | None => Raise ValueError
         end,
         log [probe_event video_file] w1))
  /\ (forall video_file output_dir silent info width height d w1,
        float_stdout E (ffprobe_command video_file) = Some d ->
        let cmd :=
          fast_command video_file output_dir
            (("fps=1/" +:+ repr_float E (PrimFloat.div d (to_float 16)))
             +:+ scale_args width height) in
        let w2 :=
          log [probe_event video_file; fast_event silent info cmd]
            (with_dir output_dir w1) in
        extract_frames E video_file output_dir 16 0 silent info width height w1 =
        (Ok tt,
         if (returncode E cmd =? 0)%Z then w2
         else
           log (notice silent info video_file ++
                probe_event video_file ::
                zip_with
                  (fallback_event E video_file output_dir silent info
                     width height)
                  (range 16) (fallback_timestamps d 16)) w2))
  /\ (forall duration, length (fallback_timestamps duration 16) = 16%nat)
  /\ main Demo.healthy (Accepted Demo.no_switch) Demo.w0 =
     (Ok tt,
      World {[ "./a_frames"; "./b_frames" ]} []
        [Run ["ffmpeg"; "-version"] true PIPE PIPE;
         Makedirs "./a_frames";
         probe_event "./a.mp4";
         Run ["ffmpeg"; "-i"; "./a.mp4"; "-vf";
              "fps=1/" +:+ Demo.show 0.625%float; "-pix_fmt"; "yuv420p";
              "-q:v"; "2"; "./a_frames/a_%03d.jpg"] true Inherit Inherit;
         Makedirs "./b_frames";
         probe_event "./b.mp4";
         Run ["ffmpeg"; "-i"; "./b.mp4"; "-vf";
              "fps=1/" +:+ Demo.show 0.625%float; "-pix_fmt"; "yuv420p";
              "-q:v"; "2"; "./b_frames/b_%03d.jpg"] true Inherit Inherit]).
Proof.
  intros HN HT Hh a file.
  assert (args_N a = 16%Z) as HN16 by (simpl; by rewrite HN).
  assert (args_T a = 0%Z) as HT0 by (simpl; by rewrite HT).
  split; [done|]. split; [done|]. split; [|split; [|split; [|split; [|split]]]].
  - rewrite count_16_passes by done. apply bind_ext; [done|]. intros _ w1.
    fold a. rewrite HT0. by rewrite process_folder_visited.
  - intros path w1 w1' Hext Hgo. by apply process_file_proceeds.
  - intros video_file w1. rewrite fast_sampling_eq. cbv zeta.
    rewrite (converts_ltb _ converts_16). simpl.
    by destruct (float_stdout _ _).
  - intros video_file output_dir silent info width height d w1 Hd.
    by apply extract_frames_by_count; [| |apply converts_16].
  - intros duration. apply fallback_timestamps_length.
  - by vm_compute.
Qed.

(** C10 at the command line without any switch. *)
Lemma default_policy_witness :
  cli_N Demo.no_switch = None /\ cli_T Demo.no_switch = None
  /\ cli_H Demo.no_switch = false
  /\ args_N (parse_args Demo.no_switch) = 16%Z
  /\ args_T (parse_args Demo.no_switch) = 0%Z.
Proof.
  split; [done|]. split; [done|]. split; [done|].
  destruct (default_policy Demo.healthy Demo.no_switch Demo.w0)
    as (HN & HT & _); [done | done | done |].
  by split.
Defined.

(** * Further properties of the script *)

(** ** How [main] ends before any file is looked at *)

(** The command line is parsed first: one that argparse rejects ends the
    script with status 2 before ffmpeg is looked for.  Without a working
    ffmpeg, every command line that argparse accepts prints the
    installation hint and exits with status 1: no help text, no switch
    test, no file. *)
Theorem ffmpeg_missing_stops_everything (E : env) (line : argv) (w : world) :
  returncode E ["ffmpeg"; "-version"] <> 0%Z ->
  main E line w =
    match line with
    | Rejected => (Raise (SystemExit 2), w)
    | Accepted _ =>
        (Raise (SystemExit 1),
         log [Run ["ffmpeg"; "-version"] true PIPE PIPE; Print ffmpeg_missing] w)
    end
  /\ exit_status (fst (main E line w))
     = Some (match line with Rejected => 2%Z | Accepted _ => 1%Z end).
Proof.
  intros Hrc. destruct line as [|c]; [done|].
  assert (main E (Accepted c) w =
    (Raise (SystemExit 1),
     log [Run ["ffmpeg"; "-version"] true PIPE PIPE; Print ffmpeg_missing] w))
    as Hrun.
  { unfold main, bind at 1, check_ffmpeg, try_except, bind at 1.
    rewrite subprocess_run_eq, (proj2 (Z.eqb_neq _ 0) Hrc). simpl.
    unfold log; simpl. by rewrite <- app_assoc. }
  split; [exact Hrun | by rewrite Hrun].
Qed.

Lemma ffmpeg_missing_stops_everything_witness :
  returncode (with_returncode (fun _ => 127%Z) Demo.healthy)
    ["ffmpeg"; "-version"] <> 0%Z
  /\ exit_status
       (fst (main (with_returncode (fun _ => 127%Z) Demo.healthy)
               (Accepted Demo.no_switch) Demo.w0)) = Some 1%Z
  /\ main (with_returncode (fun _ => 127%Z) Demo.healthy) Rejected Demo.w0
     = (Raise (SystemExit 2), Demo.w0).
Proof.
  assert (returncode (with_returncode (fun _ => 127%Z) Demo.healthy)
            ["ffmpeg"; "-version"] <> 0%Z) as Hrc by done.
  split; [exact Hrc|]. split.
  - apply (ffmpeg_missing_stops_everything _ (Accepted Demo.no_switch)
             Demo.w0 Hrc).
  - apply (ffmpeg_missing_stops_everything _ Rejected Demo.w0 Hrc).
Defined.

(** With [-H] (and a working ffmpeg) the help text is printed and nothing
    else happens, also when [-N] and [-T] are both given: the help comes
    before the switch test. *)
Theorem help_takes_precedence (E : env) (c : cli) (w : world) :
  returncode E ["ffmpeg"; "-version"] = 0%Z ->
  cli_H c = true ->
  main E (Accepted c) w =
    (Ok tt,
     log [Run ["ffmpeg"; "-version"] true PIPE PIPE; Print help_text] w).
Proof.
  intros Hrc Hh. unfold main, bind. rewrite check_ffmpeg_ok by done.
  change (args_help (parse_args c)) with (cli_H c). rewrite Hh.
  unfold print_help, print, emit, log; simpl. by rewrite <- app_assoc.
Qed.

Lemma help_takes_precedence_witness :
  returncode Demo.healthy ["ffmpeg"; "-version"] = 0%Z
  /\ cli_H (Cli None false false false (Some 3%Z) (Some 5%Z) None None
              false false true) = true
  /\ trace (snd (main Demo.healthy
                   (Accepted
                      (Cli None false false false (Some 3%Z) (Some 5%Z) None None
                         false false true)) Demo.w0))
     = [Run ["ffmpeg"; "-version"] true PIPE PIPE; Print help_text].
Proof.
  split; [done|]. split; [done|].
  rewrite (help_takes_precedence Demo.healthy
             (Cli None false false false (Some 3%Z) (Some 5%Z) None None
                false false true) Demo.w0); done.
Defined.

(** The switch test, both ways.  When the count differs from 16 and the
    interval differs from 0 the message is printed, nothing else is done and
    the script returns normally, with exit status 0.  When the count is 16
    or the interval is 0 the folder is processed with exactly these
    values. *)
Theorem switch_test_outcome (E : env) (c : cli) (w : world) :
  returncode E ["ffmpeg"; "-version"] = 0%Z ->
  cli_H c = false ->
  let a := parse_args c in
  (args_N a <> 16%Z /\ args_T a <> 0%Z ->
     main E (Accepted c) w =
       (Ok tt,
        log [Run ["ffmpeg"; "-version"] true PIPE PIPE; Print only_one_switch] w)
     /\ exit_status (fst (main E (Accepted c) w)) = Some 0%Z)
  /\ (args_N a = 16%Z \/ args_T a = 0%Z ->
      main E (Accepted c) w =
        process_folder E (args_source a) (args_R a) (args_S a) (args_I a)
          (args_N a) (args_T a) (args_P a) (args_D a) (args_X a) (args_Y a)
          (log [Run ["ffmpeg"; "-version"] true PIPE PIPE] w)).
Proof.
  intros Hrc Hh a. split.
  - intros [HN HT].
    rewrite (both_switches_rejected E c w Hrc Hh HN HT). by split.
  - intros Hpass. by apply main_processes.
Qed.

Lemma switch_test_outcome_witness :
  returncode Demo.healthy ["ffmpeg"; "-version"] = 0%Z
  /\ cli_H (Cli None false false false (Some 3%Z) (Some 5%Z) None None
              false false false) = false
  /\ exit_status
       (fst (main Demo.healthy
               (Accepted
                  (Cli None false false false (Some 3%Z) (Some 5%Z) None None
                     false false false)) Demo.w0)) = Some 0%Z.
Proof.
  split; [done|]. split; [done|].
  destruct (switch_test_outcome Demo.healthy
              (Cli None false false false (Some 3%Z) (Some 5%Z) None None
                 false false false) Demo.w0 eq_refl eq_refl) as [Hreject _].
  destruct Hreject as [_ Hstatus]; [by split | exact Hstatus].
Defined.

(** ** Which files are processed, and in which order *)

Section Traversal.

Variable E : env.

(** A loop whose every iteration leaves the world alone does nothing. *)
Lemma for_each_idle {A} (l : list A) (body : A -> M unit) w :
  (forall x, x ∈ l -> forall w1, body x w1 = (Ok tt, w1)) ->
  for_each l body w = (Ok tt, w).
Proof.
  induction l as [|x l IH]; intros Hidle; simpl; [done|].
  unfold bind. rewrite Hidle by apply list_elem_of_here.
  apply IH. intros y Hy. apply Hidle. by apply list_elem_of_further.
Qed.

End Traversal.

(** Both traversals are one sequential pass of [process_file] over joined
    paths: the names of the folder in listing order, or, with [-R], the
    files of every directory of the walk, directory by directory; a folder
    that cannot be listed ends the flat traversal with the [OSError] of
    [os.listdir].  On a folder without subdirectories the two coincide. *)
Theorem traversal_is_one_pass (E : env) (folder : string)
    (recursive silent info : bool) (frame_count time_interval : Z)
    (prompt same_dir : bool) (width height : Z) (names : list string)
    (w : world) :
  process_folder E folder recursive silent info frame_count time_interval
    prompt same_dir width height w
  = match visited E folder recursive with
    | Some paths =>
        for_each paths
          (fun path =>
             process_file E path silent info frame_count time_interval prompt
               same_dir width height) w
    | None => (Raise OSError, w)
    end
  /\ (os_listdir E folder = Some names ->
      os_walk E folder = [(folder, names)] ->
      process_folder E folder true silent info frame_count time_interval
        prompt same_dir width height w
      = process_folder E folder false silent info frame_count time_interval
          prompt same_dir width height w).
Proof.
  split.
  - apply process_folder_visited.
  - intros Hls Hwalk. rewrite !process_folder_visited.
    unfold visited, walked_files. rewrite Hls, Hwalk. simpl.
    by rewrite app_nil_r.
Qed.

Lemma traversal_is_one_pass_witness :
  os_listdir
    (Env (fun _ => 0%Z) (fun _ => Some Demo.ten) Demo.show Demo.listing
       (fun folder => [(folder, ["a.mp4"; "b.mp4"])])) "."
  = Some ["a.mp4"; "b.mp4"]
  /\ os_walk (Env (fun _ => 0%Z) (fun _ => Some Demo.ten) Demo.show Demo.listing
             (fun folder => [(folder, ["a.mp4"; "b.mp4"])])) "."
  = [(".", ["a.mp4"; "b.mp4"])]
  /\ process_folder
       (Env (fun _ => 0%Z) (fun _ => Some Demo.ten) Demo.show Demo.listing
          (fun folder => [(folder, ["a.mp4"; "b.mp4"])]))
       "." true false false 16 0 false false 0 0 Demo.w0
     = process_folder
         (Env (fun _ => 0%Z) (fun _ => Some Demo.ten) Demo.show Demo.listing
            (fun folder => [(folder, ["a.mp4"; "b.mp4"])]))
         "." false false false 16 0 false false 0 0 Demo.w0.
Proof.
  split; [done|]. split; [done|].
  apply (traversal_is_one_pass
           (Env (fun _ => 0%Z) (fun _ => Some Demo.ten) Demo.show Demo.listing
              (fun folder => [(folder, ["a.mp4"; "b.mp4"])]))
           "." true false false 16 0 false false 0 0 ["a.mp4"; "b.mp4"]
           Demo.w0); done.
Defined.

(** A traversal that meets no path ending in [.mp4], [.mov], [.avi] or
    [.mkv] (in exactly this spelling) changes nothing: no question is asked,
    no directory is made, no program is started. *)
Theorem folder_without_videos (E : env) (folder : string)
    (recursive silent info : bool) (frame_count time_interval : Z)
    (prompt same_dir : bool) (width height : Z) (paths : list string)
    (w : world) :
  visited E folder recursive = Some paths ->
  (forall path, path ∈ paths ->
     forall p ext, ext ∈ video_extensions -> path <> p +:+ ext) ->
  process_folder E folder recursive silent info frame_count time_interval
    prompt same_dir width height w = (Ok tt, w).
Proof.
  intros Hvisit Hnone. rewrite process_folder_visited, Hvisit.
  apply for_each_idle. intros path Hpath w1. unfold process_file.
  destruct (Str.endswith_any path video_extensions) eqn:Hext; [|done].
  apply endswith_any_spec in Hext as (p & ext & Hin & ->).
  by destruct (Hnone _ Hpath p ext Hin).
Qed.

Lemma folder_without_videos_witness :
  visited (Env (fun _ => 0%Z) (fun _ => None) Demo.show
             (fun _ => Some ["notes.txt"; "clip.MP4"]) (fun _ => []))
    "." false = Some ["./notes.txt"; "./clip.MP4"]
  /\ (forall path,
     path ∈ ["./notes.txt"; "./clip.MP4"] ->
     forall p ext, ext ∈ video_extensions -> path <> p +:+ ext)
  /\ process_folder
       (Env (fun _ => 0%Z) (fun _ => None) Demo.show
          (fun _ => Some ["notes.txt"; "clip.MP4"]) (fun _ => []))
       "." false false false 16 0 true false 0 0 Demo.w0 = (Ok tt, Demo.w0).
Proof.
  assert (forall path : string,
     path ∈ ["./notes.txt"; "./clip.MP4"] ->
     forall p ext, ext ∈ video_extensions -> path <> p +:+ ext) as Hnone.
  { intros path Hpath p ext Hext Heq.
    assert (Str.endswith_any path video_extensions = true) as Hends
      by (apply endswith_any_spec; by exists p, ext).
    apply list_elem_of_In in Hpath.
    destruct Hpath as [<- | [<- | []]]; discriminate Hends. }
  split; [done|]. split; [exact Hnone|].
  by apply (folder_without_videos _ "." false false false 16 0 true false 0 0
              ["./notes.txt"; "./clip.MP4"]).
Defined.

(** ** The question of [-P] *)

Section Prompt.

(** [strip] takes away the white space of [str.isspace], beyond ASCII too:
    the no-break space U+00A0 (bytes 194, 160) and the ideographic space
    U+3000 (bytes 227, 128, 128) go, a letter with an accent stays. *)
Lemma strip_examples :
  let nbsp := String (ascii_of_nat 194) (String (ascii_of_nat 160) "") in
  let wide := String (ascii_of_nat 227)
                (String (ascii_of_nat 128) (String (ascii_of_nat 128) "")) in
  let e_acute := String (ascii_of_nat 195) (String (ascii_of_nat 169) "") in
  Str.strip ("n" +:+ nbsp) = "n"
  /\ Str.strip (wide +:+ " A" +:+ nbsp +:+ wide) = "A"
  /\ Str.strip (" " +:+ e_acute +:+ " ") = e_acute
  /\ Str.strip "n o" = "n o"
  /\ Str.strip "" = "".
Proof. by vm_compute. Qed.

End Prompt.

(** What the answer to the question does.  The line read is stripped of
    surrounding blanks and lower-cased; exactly [n] skips the file (only the
    question has happened), exactly [a] prints [Process aborted.] and leaves
    through [sys.exit()], and every other answer, the empty line and [no]
    included, has the file processed as if no question had been asked. *)
Theorem prompt_answer (E : env) (video_file : string) (silent info : bool)
    (frame_count time_interval : Z) (same_dir : bool) (width height : Z)
    (w : world) (answer : string) (rest : list string) :
  Str.endswith_any video_file video_extensions = true ->
  stdin w = answer :: rest ->
  let response := Str.lower (Str.strip answer) in
  let run :=
    process_file E video_file silent info frame_count time_interval true
      same_dir width height w in
  (response = "n" -> run = (Ok tt, asked video_file rest w))
  /\ (response = "a" ->
      run = (Raise (SystemExit 0),
             log [Print "Process aborted."] (asked video_file rest w)))
  /\ (response <> "n" -> response <> "a" ->
      run = process_file E video_file silent info frame_count time_interval
              false same_dir width height (asked video_file rest w)).
Proof.
  intros Hext Hin response run. unfold run.
  rewrite (process_file_asks E _ _ _ _ _ _ _ _ _ _ _ Hext Hin). cbv zeta.
  fold response. split; [|split].
  - intros ->. done.
  - intros ->. done.
  - intros Hn Ha.
    by rewrite (proj2 (String.eqb_neq _ _) Hn), (proj2 (String.eqb_neq _ _) Ha).
Qed.

Lemma prompt_answer_witness :
  Str.endswith_any "./a.mp4" video_extensions = true
  /\ stdin (World ∅ ["  N "; "y"] []) = "  N " :: ["y"]
  /\ Str.lower (Str.strip "  N ") = "n"
  /\ process_file Demo.healthy "./a.mp4" false false 16 0 true false 0 0
       (World ∅ ["  N "; "y"] [])
     = (Ok tt, asked "./a.mp4" ["y"] (World ∅ ["  N "; "y"] [])).
Proof.
  split; [done|]. split; [done|]. split; [done|].
  destruct (prompt_answer Demo.healthy "./a.mp4" false false 16 0 false 0 0
              (World ∅ ["  N "; "y"] []) "  N " ["y"]) as [Hskip _];
    [done | done |].
  by apply Hskip.
Defined.

(** An [a] ends the batch: the files before it have been processed, the
    file asked about and all files after it are left alone, and the exit
    status is 0. *)
Theorem prompt_abort_stops_batch (E : env) (folder : string)
    (recursive silent info : bool) (frame_count time_interval : Z)
    (same_dir : bool) (width height : Z) (pre post : list string)
    (path answer : string) (rest : list string) (w w1 : world) :
  visited E folder recursive = Some (pre ++ path :: post) ->
  for_each pre
    (fun p => process_file E p silent info frame_count time_interval true
                same_dir width height) w = (Ok tt, w1) ->
  Str.endswith_any path video_extensions = true ->
  stdin w1 = answer :: rest ->
  Str.lower (Str.strip answer) = "a" ->
  let run :=
    process_folder E folder recursive silent info frame_count time_interval
      true same_dir width height w in
  run = (Raise (SystemExit 0),
         log [Print "Process aborted."] (asked path rest w1))
  /\ exit_status (fst run) = Some 0%Z.
Proof.
  intros Hvisit Hpre Hext Hin Ha run.
  assert (run = (Raise (SystemExit 0),
                 log [Print "Process aborted."] (asked path rest w1))) as Hrun.
  { unfold run. rewrite process_folder_visited, Hvisit.
    apply (for_each_raise pre post path _ w w1); [done|].
    rewrite (process_file_asks E _ _ _ _ _ _ _ _ _ _ _ Hext Hin). cbv zeta.
    by rewrite Ha. }
  split; [exact Hrun | by rewrite Hrun].
Qed.

Lemma prompt_abort_stops_batch_witness :
  visited Demo.healthy "." false = Some ([] ++ "./a.mp4" :: ["./b.mp4"])
  /\ Str.lower (Str.strip "A") = "a"
  /\ process_folder Demo.healthy "." false false false 16 0 true false 0 0
       (World ∅ ["A"] [])
     = (Raise (SystemExit 0),
        log [Print "Process aborted."] (asked "./a.mp4" [] (World ∅ ["A"] []))).
Proof.
  split; [done|]. split; [done|].
  apply (prompt_abort_stops_batch Demo.healthy "." false false false 16 0 false
           0 0 [] ["./b.mp4"] "./a.mp4" "A" [] (World ∅ ["A"] [])
           (World ∅ ["A"] [])); done.
Defined.

(** When the input has run out, the question is still put and the run ends
    there with [EOFError]. *)
Theorem prompt_at_end_of_input (E : env) (video_file : string)
    (silent info : bool) (frame_count time_interval : Z) (same_dir : bool)
    (width height : Z) (w : world) :
  Str.endswith_any video_file video_extensions = true ->
  stdin w = [] ->
  process_file E video_file silent info frame_count time_interval true
    same_dir width height w
  = (Raise EOFError, asked video_file [] w).
Proof.
  intros Hext Hin. unfold process_file. rewrite Hext.
  unfold bind at 1. unfold bind at 1. unfold input. by rewrite Hin.
Qed.

Lemma prompt_at_end_of_input_witness :
  Str.endswith_any "./a.mp4" video_extensions = true
  /\ stdin Demo.w0 = []
  /\ fst (process_file Demo.healthy "./a.mp4" false false 16 0 true false 0 0
            Demo.w0) = Raise EOFError.
Proof.
  split; [done|]. split; [done|].
  by rewrite (prompt_at_end_of_input Demo.healthy "./a.mp4" false false 16 0
                false 0 0 Demo.w0).
Defined.

(** ** What a run leaves behind *)

Section Respects.

Context (R : world -> world -> Prop).
Hypothesis R_refl : forall w, R w w.
Hypothesis R_trans : forall w1 w2 w3, R w1 w2 -> R w2 w3 -> R w1 w3.
Hypothesis R_log : forall w evs, R w (log evs w).
Hypothesis R_mkdir :
  forall w p, R w (World ({[p]} ∪ fs w) (stdin w) (trace w ++ [Makedirs p])).

Variable E : env.

Lemma respects_ret {A} (a : A) : respects R (ret a).
Proof. intros w. apply R_refl. Qed.

Lemma respects_raise {A} (e : exn) : respects R (@raise A e).
Proof. intros w. apply R_refl. Qed.

Lemma respects_bind {A B} (m : M A) (k : A -> M B) :
  respects R m -> (forall a, respects R (k a)) -> respects R (bind m k).
Proof.
  intros Hm Hk w. unfold bind. specialize (Hm w).
  destruct (m w) as [[a| e |] w1]; simpl in *; [|done..].
  eapply R_trans; [exact Hm | apply Hk].
Qed.

Lemma respects_try_except {A} (body handler : M A) (exc : exn) :
  respects R body -> respects R handler ->
  respects R (try_except body exc handler).
Proof.
  intros Hb Hh w. unfold try_except. specialize (Hb w).
  destruct (body w) as [[a| e |] w1]; simpl in *; [done| |done].
  destruct (decide (e = exc)); [|done].
  eapply R_trans; [exact Hb | apply Hh].
Qed.

Lemma respects_for_each {A} (l : list A) (body : A -> M unit) :
  (forall x, respects R (body x)) -> respects R (for_each l body).
Proof.
  intros Hb. induction l as [|x l IH]; simpl.
  - apply respects_ret.
  - apply respects_bind; [apply Hb | intros _; apply IH].
Qed.

Lemma respects_emit e : respects R (emit e).
Proof. intros w. apply (R_log w [e]). Qed.

Lemma respects_subprocess_run cmd check out err :
  respects R (subprocess_run E cmd check out err).
Proof.
  unfold subprocess_run. apply respects_bind; [apply respects_emit|].
  intros _. destruct (_ && _); [apply respects_raise | apply respects_ret].
Qed.

Lemma respects_ensure_dir output_dir : respects R (ensure_dir output_dir).
Proof.
  intros w. rewrite ensure_dir_eq. unfold with_dir; simpl.
  destruct (bool_decide _); [apply R_refl | apply R_mkdir].
Qed.

Lemma respects_probe_duration video_file :
  respects R (probe_duration E video_file).
Proof.
  intros w. rewrite probe_duration_eq. apply R_log.
Qed.

Lemma respects_with_dir output_dir evs w :
  R w (log evs (with_dir output_dir w)).
Proof.
  eapply R_trans; [|apply R_log]. unfold with_dir.
  destruct (bool_decide _); [apply R_refl | apply R_mkdir].
Qed.

Lemma respects_extract_frames_fallback video_file output_dir frame_count
    silent info width height :
  respects R (extract_frames_fallback E video_file output_dir frame_count
                silent info width height).
Proof.
  intros w. rewrite extract_frames_fallback_eq. cbv zeta.
  destruct (float_stdout _ _); [|apply respects_with_dir].
  destruct (Z.abs frame_count <? float_limit)%Z; [|apply respects_with_dir].
  destruct (frame_count =? 0)%Z; [apply respects_with_dir|].
  simpl. rewrite log_log. apply respects_with_dir.
Qed.

Lemma respects_extract_frames video_file output_dir frame_count time_interval
    silent info width height :
  respects R (extract_frames E video_file output_dir frame_count time_interval
                silent info width height).
Proof.
  unfold extract_frames.
  apply respects_bind; [apply respects_ensure_dir | intros _].
  apply respects_try_except.
  - apply respects_bind.
    { intros w. rewrite fast_sampling_eq.
      destruct (0 <? time_interval)%Z; [apply R_refl|]. simpl.
      destruct (float_stdout _ _); [|apply R_log].
      destruct (Z.abs frame_count <? float_limit)%Z; [|apply R_log].
      destruct (frame_count =? 0)%Z; apply R_log. }
    intros sampling.
    destruct silent; [|destruct info];
      (apply respects_bind;
       [apply respects_subprocess_run | intros _; apply respects_ret]).
  - apply respects_bind.
    + destruct (_ && _); [apply respects_emit | apply respects_ret].
    + intros _. apply respects_extract_frames_fallback.
Qed.

Lemma unique_folder_loop_world fuel output_dir counter name w :
  snd (unique_folder_loop fuel output_dir counter name w) = w.
Proof.
  revert counter name. induction fuel as [|fuel IH]; intros counter name;
    simpl; unfold bind, os_path_exists; destruct (bool_decide _); simpl;
    try done; apply IH.
Qed.

Lemma respects_allocate_output_dir video_file :
  respects R (allocate_output_dir video_file).
Proof.
  intros w. unfold allocate_output_dir.
  rewrite unique_folder_loop_world. apply R_refl.
Qed.

Lemma respects_process_file video_file silent info frame_count time_interval
    prompt same_dir width height :
  (prompt = true -> forall q, respects R (input q)) ->
  respects R (process_file E video_file silent info frame_count time_interval
                prompt same_dir width height).
Proof.
  intros Hinput. unfold process_file.
  destruct (Str.endswith_any _ _); [|apply respects_ret].
  apply respects_bind.
  - destruct prompt; [|apply respects_ret].
    apply respects_bind; [by apply Hinput | intros answer].
    destruct (String.eqb _ "n"); [apply respects_ret|].
    destruct (String.eqb _ "a"); [|apply respects_ret].
    apply respects_bind; [apply respects_emit | intros _; apply respects_raise].
  - intros [|]; [|apply respects_ret].
    apply respects_bind.
    { destruct (_ && _); [apply respects_emit | apply respects_ret]. }
    intros _. apply respects_bind.
    { destruct same_dir; [apply respects_ret | apply respects_allocate_output_dir]. }
    intros output_dir. apply respects_extract_frames.
Qed.

Lemma respects_process_folder folder recursive silent info frame_count
    time_interval prompt same_dir width height :
  (prompt = true -> forall q, respects R (input q)) ->
  respects R (process_folder E folder recursive silent info frame_count
                time_interval prompt same_dir width height).
Proof.
  intros Hinput. unfold process_folder. destruct recursive.
  - apply respects_for_each. intros [root files].
    apply respects_for_each. intros filename. by apply respects_process_file.
  - destruct (os_listdir E folder) as [names|]; [|apply respects_raise].
    apply respects_for_each. intros filename. by apply respects_process_file.
Qed.

Lemma respects_main (line : argv) :
  (forall c, line = Accepted c -> cli_P c = true ->
     forall q, respects R (input q)) ->
  respects R (main E line).
Proof.
  intros Hinput. destruct line as [|c]; [apply respects_raise|].
  unfold main. apply respects_bind.
  - unfold check_ffmpeg. apply respects_try_except.
    + apply respects_bind; [apply respects_subprocess_run | intros _; apply respects_ret].
    + apply respects_bind; [apply respects_emit | intros _; apply respects_raise].
  - intros _. destruct (args_help _); [apply respects_emit|].
    destruct (_ && _); [apply respects_emit|].
    apply respects_process_folder. by apply Hinput.
Qed.

End Respects.

(** A run never makes a path disappear: whatever existed before [main]
    exists after it, however the run ends. *)
Theorem paths_are_never_removed (E : env) (line : argv) (w : world) :
  fs w ⊆ fs (snd (main E line w)).
Proof.
  apply (respects_main fs_grows); unfold fs_grows.
  - done.
  - intros w1 w2 w3 H12 H23. by transitivity (fs w2).
  - done.
  - intros w1 p. simpl. set_solver.
  - intros _ _ _ q w1. unfold input. by destruct (stdin w1).
Qed.

(** Without [-P] a run reads nothing from standard input. *)
Theorem no_prompt_no_input (E : env) (c : cli) (w : world) :
  cli_P c = false ->
  stdin (snd (main E (Accepted c) w)) = stdin w.
Proof.
  intros HP.
  apply (respects_main stdin_kept); unfold stdin_kept.
  - done.
  - intros w1 w2 w3 H12 H23. by rewrite H23.
  - done.
  - done.
  - intros c' [= <-] Hp. congruence.
Qed.

Lemma no_prompt_no_input_witness :
  cli_P Demo.no_switch = false
  /\ stdin (snd (main Demo.failing (Accepted Demo.no_switch)
                   (World ∅ ["a"; "n"] [])))
     = ["a"; "n"].
Proof.
  split; [done|].
  by apply (no_prompt_no_input Demo.failing Demo.no_switch
              (World ∅ ["a"; "n"] [])).
Defined.

(** ** What the verbosity switches let through *)

Section Verbosity.

Variable E : env.
Variable P : event -> Prop.

Lemma appends_fallback_modes video_file output_dir frame_count silent info
    width height :
  P (Makedirs output_dir) -> P (probe_event video_file) ->
  (forall i timestamp,
     P (fallback_event E video_file output_dir silent info width height
          i timestamp)) ->
  appends P (extract_frames_fallback E video_file output_dir frame_count
               silent info width height).
Proof.
  intros Hdir Hprobe Hframe. unfold extract_frames_fallback.
  apply appends_bind; [by apply appends_ensure_dir | intros _].
  apply appends_bind; [by apply appends_probe_duration | intros duration].
  apply appends_bind; [apply appends_float_div_int | intros interval].
  apply appends_for_each. intros i. unfold fallback_frame.
  apply appends_bind; [apply appends_int_mul_float | intros timestamp].
  specialize (Hframe i timestamp). unfold fallback_event in Hframe.
  destruct (silent || info);
    (apply appends_bind;
     [by apply appends_subprocess_run | intros _; apply appends_ret]).
Qed.

Lemma appends_extract_frames_modes video_file output_dir frame_count
    time_interval silent info width height :
  P (Makedirs output_dir) -> P (probe_event video_file) ->
  Forall P (notice silent info video_file) ->
  (forall sampling,
     P (fast_event silent info
          (fast_command video_file output_dir
             (sampling +:+ scale_args width height)))) ->
  (forall i timestamp,
     P (fallback_event E video_file output_dir silent info width height
          i timestamp)) ->
  appends P (extract_frames E video_file output_dir frame_count time_interval
               silent info width height).
Proof.
  intros Hdir Hprobe Hnotice Hfast Hframe. unfold extract_frames.
  apply appends_bind; [by apply appends_ensure_dir | intros _].
  apply appends_try_except.
  - apply appends_bind; [by apply appends_fast_sampling | intros sampling].
    specialize (Hfast sampling). unfold fast_event in Hfast.
    destruct silent; [|destruct info];
      (apply appends_bind;
       [by apply appends_subprocess_run | intros _; apply appends_ret]).
  - apply appends_bind.
    + unfold notice in Hnotice. destruct (negb silent && negb info).
      * apply appends_emit. by inversion Hnotice.
      * apply appends_ret.
    + intros _. by apply appends_fallback_modes.
Qed.

Lemma appends_allocate_output_dir video_file :
  appends P (allocate_output_dir video_file).
Proof.
  intros w. exists []. unfold allocate_output_dir.
  rewrite unique_folder_loop_world, app_nil_r. by split.
Qed.

Lemma appends_process_file_unprompted video_file silent info frame_count
    time_interval same_dir width height :
  (forall output_dir, P (Makedirs output_dir)) ->
  P (probe_event video_file) ->
  Forall P (progress silent info video_file) ->
  Forall P (notice silent info video_file) ->
  (forall output_dir sampling,
     P (fast_event silent info
          (fast_command video_file output_dir
             (sampling +:+ scale_args width height)))) ->
  (forall output_dir i timestamp,
     P (fallback_event E video_file output_dir silent info width height
          i timestamp)) ->
  appends P (process_file E video_file silent info frame_count time_interval
               false same_dir width height).
Proof.
  intros Hdir Hprobe Hprogress Hnotice Hfast Hframe. unfold process_file.
  destruct (Str.endswith_any _ _); [|apply appends_ret].
  apply appends_bind; [apply appends_ret | intros [|]; [|apply appends_ret]].
  apply appends_bind.
  { unfold progress in Hprogress. destruct (negb silent && info).
    - apply appends_emit. by inversion Hprogress.
    - apply appends_ret. }
  intros _. apply appends_bind.
  { destruct same_dir; [apply appends_ret | apply appends_allocate_output_dir]. }
  intros output_dir. by apply appends_extract_frames_modes.
Qed.

End Verbosity.

(** The verbosity switches, for a traversal without [-P].  In silent mode
    nothing is printed and every ffmpeg call has both streams sent to
    DEVNULL; in info mode the only lines are the [Processing: ...] lines,
    ffmpeg's output is discarded and its diagnostics are captured; with
    neither switch the only lines are the notices of a fallback (no progress
    line is printed) and ffmpeg inherits both streams. *)
Theorem verbosity_modes (E : env) (folder : string)
    (recursive silent info : bool) (frame_count time_interval : Z)
    (same_dir : bool) (width height : Z) :
  appends (mode_event silent info)
    (process_folder E folder recursive silent info frame_count time_interval
       false same_dir width height).
Proof.
  assert (forall path,
    appends (mode_event silent info)
      (process_file E path silent info frame_count time_interval false
         same_dir width height)) as Hfile.
  { intros path. apply appends_process_file_unprompted.
    - done.
    - intros Hcmd. discriminate Hcmd.
    - unfold progress. destruct silent, info; simpl; repeat constructor.
      by eexists.
    - unfold notice. destruct silent, info; simpl; repeat constructor.
      by eexists.
    - intros output_dir sampling. by destruct silent, info.
    - intros output_dir i timestamp. by destruct silent, info. }
  unfold process_folder. destruct recursive.
  - apply appends_for_each. intros [root files].
    apply appends_for_each. intros filename. apply Hfile.
  - destruct (os_listdir E folder) as [names|]; [|apply appends_raise].
    apply appends_for_each. intros filename. apply Hfile.
Qed.

(** ** How a run can end *)

Section Outcomes.

Variable E : env.

Lemma raises_only_ret {A} (S : exn -> Prop) (a : A) : raises_only S (ret a).
Proof. by intros w. Qed.

Lemma raises_only_raise {A} (S : exn -> Prop) (e : exn) :
  S e -> raises_only S (@raise A e).
Proof. by intros He w. Qed.

Lemma raises_only_mono {A} (S S' : exn -> Prop) (m : M A) :
  (forall e, S e -> S' e) -> raises_only S m -> raises_only S' m.
Proof.
  intros Himp Hm w. specialize (Hm w).
  destruct (fst (m w)); [done | by apply Himp | done].
Qed.

Lemma raises_only_bind {A B} (S : exn -> Prop) (m : M A) (k : A -> M B) :
  raises_only S m -> (forall a, raises_only S (k a)) ->
  raises_only S (bind m k).
Proof.
  intros Hm Hk w. unfold bind. specialize (Hm w).
  destruct (m w) as [[a| e |] w1]; simpl in *; [apply Hk | done | done].
Qed.

Lemma raises_only_try_except {A} (S S' : exn -> Prop) (body handler : M A)
    (exc : exn) :
  raises_only S' body -> raises_only S handler ->
  (forall e, S' e -> e <> exc -> S e) ->
  raises_only S (try_except body exc handler).
Proof.
  intros Hb Hh Himp w. unfold try_except. specialize (Hb w).
  destruct (body w) as [[a| e |] w1]; simpl in *; [done| |done].
  destruct (decide (e = exc)); [apply Hh | simpl; by apply Himp].
Qed.

Lemma raises_only_for_each {A} (S : exn -> Prop) (l : list A)
    (body : A -> M unit) :
  (forall x, raises_only S (body x)) -> raises_only S (for_each l body).
Proof.
  intros Hb. induction l as [|x l IH]; simpl.
  - apply raises_only_ret.
  - apply raises_only_bind; [apply Hb | intros _; apply IH].
Qed.

Lemma raises_only_fallback video_file output_dir frame_count silent info
    width height :
  raises_only schedule_exn
    (extract_frames_fallback E video_file output_dir frame_count silent info
       width height).
Proof.
  intros w. rewrite extract_frames_fallback_eq. cbv zeta.
  destruct (float_stdout _ _); [|by left].
  destruct (Z.abs frame_count <? float_limit)%Z; [|right; by right].
  destruct (frame_count =? 0)%Z; [right; by left | done].
Qed.

Lemma raises_only_extract_frames video_file output_dir frame_count
    time_interval silent info width height :
  raises_only schedule_exn
    (extract_frames E video_file output_dir frame_count time_interval
       silent info width height).
Proof.
  intros w.
  destruct (fast_sampling E video_file frame_count time_interval
              (with_dir output_dir w)) as [[sampling| e |] w1] eqn:Hs.
  - pose proof (extract_frames_eq E video_file output_dir frame_count
                  time_interval silent info width height w _ _ Hs) as Heq.
    cbv zeta in Heq. rewrite Heq.
    destruct (_ =? 0)%Z; [done | apply raises_only_fallback].
  - rewrite (extract_frames_raise _ _ _ _ _ _ _ _ _ _ _ _ Hs). simpl.
    rewrite fast_sampling_eq in Hs. destruct (0 <? time_interval)%Z; [done|].
    cbv zeta in Hs. destruct (float_stdout _ _).
    + destruct (Z.abs frame_count <? float_limit)%Z.
      * destruct (frame_count =? 0)%Z; [|done].
        injection Hs as <- _. right. by left.
      * injection Hs as <- _. right. by right.
    + injection Hs as <- _. by left.
  - rewrite fast_sampling_eq in Hs. destruct (0 <? time_interval)%Z; [done|].
    cbv zeta in Hs. destruct (float_stdout _ _); [|done].
    destruct (Z.abs frame_count <? float_limit)%Z; [|done].
    by destruct (frame_count =? 0)%Z.
Qed.

Lemma raises_only_allocate (S : exn -> Prop) video_file :
  raises_only S (allocate_output_dir video_file).
Proof.
  intros w. by destruct (allocate_output_dir_returns video_file w) as (out & ->).
Qed.

Lemma raises_only_process_file video_file silent info frame_count
    time_interval prompt same_dir width height :
  raises_only (run_exn prompt)
    (process_file E video_file silent info frame_count time_interval prompt
       same_dir width height).
Proof.
  unfold process_file. destruct (Str.endswith_any _ _); [|apply raises_only_ret].
  apply raises_only_bind.
  - destruct prompt; [|apply raises_only_ret].
    apply raises_only_bind.
    + intros w. unfold input. destruct (stdin w); simpl; [|done].
      right. right. by split; [|right].
    + intros answer. destruct (String.eqb _ "n"); [apply raises_only_ret|].
      destruct (String.eqb _ "a"); [|apply raises_only_ret].
      apply raises_only_bind; [done | intros _].
      apply raises_only_raise. right. right. by split; [|left].
  - intros [|]; [|apply raises_only_ret].
    apply raises_only_bind.
    { by destruct (_ && _). }
    intros _. apply raises_only_bind.
    { destruct same_dir; [apply raises_only_ret | apply raises_only_allocate]. }
    intros output_dir.
    eapply raises_only_mono; [|apply raises_only_extract_frames].
    intros e He. by left.
Qed.

Lemma raises_only_process_folder folder recursive silent info frame_count
    time_interval prompt same_dir width height :
  raises_only (run_exn prompt)
    (process_folder E folder recursive silent info frame_count time_interval
       prompt same_dir width height).
Proof.
  unfold process_folder. destruct recursive.
  - apply raises_only_for_each. intros [root files].
    apply raises_only_for_each. intros filename. apply raises_only_process_file.
  - destruct (os_listdir E folder) as [names|].
    + apply raises_only_for_each. intros filename.
      apply raises_only_process_file.
    + apply raises_only_raise. right. by left.
Qed.

End Outcomes.

(** Given that ffprobe and ffmpeg can be started and the folder can be
    made, [extract_frames] always ends, and the only exceptions that leave
    it are the [ValueError] of a probe that is no number, the
    [ZeroDivisionError] of a count of 0 and the [OverflowError] of a count
    too large for a float: a failing ffmpeg never makes it raise, neither
    in the fast attempt nor in the fallback. *)
Theorem extract_frames_raises_only (E : env) (video_file output_dir : string)
    (frame_count time_interval : Z) (silent info : bool) (width height : Z)
    (w : world) :
  let r := fst (extract_frames E video_file output_dir frame_count
                  time_interval silent info width height w) in
  r = Ok tt \/ r = Raise ValueError \/ r = Raise ZeroDivisionError
  \/ r = Raise OverflowError.
Proof.
  intros r.
  pose proof (raises_only_extract_frames E video_file output_dir frame_count
                time_interval silent info width height w) as Hr.
  fold r in Hr. destruct r as [[]| e |]; [by left | | done].
  destruct Hr as [-> | [-> | ->]];
    [right; by left | right; right; by left | right; right; by right].
Qed.

(** Given that the programs can be started and the folders can be made,
    every run of the script ends (the search for a free folder name
    included), and it ends by returning or with one of: [SystemExit(2)]
    for a command line that argparse rejects, and for an accepted one
    [SystemExit(1)] for a missing ffmpeg, [ValueError],
    [ZeroDivisionError], [OverflowError], the [OSError] of a folder that
    cannot be listed, and, with [-P] only, the [SystemExit] of an abort or
    [EOFError].  [CalledProcessError] never leaves the script. *)
Theorem main_raises_only (E : env) (line : argv) (w : world) :
  match fst (main E line w) with
  | Ok _ => True
  | Raise e => main_exn line e /\ e <> CalledProcessError
  | Diverge => False
  end.
Proof.
  assert (raises_only (main_exn line) (main E line)) as Hmain.
  { destruct line as [|c]; [by apply raises_only_raise|].
    unfold main. apply raises_only_bind.
    - unfold check_ffmpeg.
      apply (raises_only_try_except _ (fun e => e = CalledProcessError)).
      + intros w1. unfold bind. rewrite subprocess_run_eq.
        by destruct (_ && _).
      + apply raises_only_bind; [done | intros _].
        apply raises_only_raise. by left.
      + intros e -> Hne. done.
    - intros _. destruct (args_help _); [done|].
      destruct (_ && _); [done|].
      eapply raises_only_mono; [|apply raises_only_process_folder].
      intros e He. by right. }
  specialize (Hmain w).
  destruct (fst (main E line w)) as [a| e |]; [done | | done].
  split; [done|]. intros ->. destruct line as [|c]; [discriminate Hmain|].
  destruct Hmain as [? | [[? | [? | ?]] | [? | [_ [? | ?]]]]]; discriminate.
Qed.

(** ** Batches that go through, probes, and edge counts *)

Section Through.

Variable E : env.

Lemma for_each_ok {A} (l : list A) (body : A -> M unit) w :
  (forall x, x ∈ l -> forall w1, fst (body x w1) = Ok tt) ->
  fst (for_each l body w) = Ok tt.
Proof.
  revert w. induction l as [|x l IH]; intros w Hok; simpl; [done|].
  unfold bind. pose proof (Hok x (list_elem_of_here x l) w) as Hx.
  destruct (body x w) as [r w1]; simpl in Hx; subst r.
  apply IH. intros y Hy. apply Hok. by apply list_elem_of_further.
Qed.

Lemma extract_frames_with_dir video_file output_dir frame_count time_interval
    silent info width height w :
  extract_frames E video_file output_dir frame_count time_interval silent info
    width height (with_dir output_dir w)
  = extract_frames E video_file output_dir frame_count time_interval silent
      info width height w.
Proof.
  unfold extract_frames, bind. rewrite !ensure_dir_eq.
  by rewrite with_dir_present by apply with_dir_elem.
Qed.

(** The folder handed to [extract_frames] exists afterwards. *)
Lemma extract_frames_has_dir video_file output_dir frame_count time_interval
    silent info width height w :
  output_dir ∈ fs (snd (extract_frames E video_file output_dir frame_count
                          time_interval silent info width height w)).
Proof.
  rewrite <- extract_frames_with_dir.
  assert (respects fs_grows
            (extract_frames E video_file output_dir frame_count time_interval
               silent info width height)) as Hgrow.
  { apply respects_extract_frames; unfold fs_grows.
    - done.
    - intros w1 w2 w3 H12 H23. by transitivity (fs w2).
    - done.
    - intros w1 p. simpl. set_solver. }
  apply (Hgrow (with_dir output_dir w)), with_dir_elem.
Qed.

Lemma allocate_output_dir_free video_file w :
  exists output_dir,
    allocate_output_dir video_file w = (Ok output_dir, w)
    /\ output_dir ∉ fs w.
Proof.
  destruct (unique_folder_loop_spec (frames_dir video_file) w
              (size (fs w)) 0 (fs w)) as (k & _ & Hrun & Hfree & _);
    [done | done |].
  by exists (candidate (frames_dir video_file) k).
Qed.

(** [process_file] in subfolder mode, without prompting: the folder it
    takes does not exist yet. *)
Lemma process_file_subfolder video_file silent info frame_count time_interval
    width height w :
  Str.endswith_any video_file video_extensions = true ->
  exists output_dir,
    (output_dir ∉ fs w)
    /\ process_file E video_file silent info frame_count time_interval false
         false width height w
       = extract_frames E video_file output_dir frame_count time_interval
           silent info width height (log (progress silent info video_file) w).
Proof.
  intros Hext. unfold process_file. rewrite Hext.
  assert (((if negb silent && info then print ("Processing: " +:+ video_file)
            else ret tt) : M unit) w
          = (Ok tt, log (progress silent info video_file) w)) as Hprogress.
  { unfold progress. destruct (negb silent && info); [done|].
    by rewrite log_nil. }
  destruct (allocate_output_dir_free video_file
              (log (progress silent info video_file) w)) as (out & Hout & Hfree).
  exists out. split; [exact Hfree|].
  unfold bind at 1. unfold ret at 1. unfold bind at 1.
  rewrite Hprogress. unfold bind at 1. by rewrite Hout.
Qed.

Lemma fallback_probes_once video_file output_dir frame_count silent info
    width height w :
  count is_probe_run
    (trace (snd (extract_frames_fallback E video_file output_dir frame_count
                   silent info width height w)))
  = S (count is_probe_run (trace w)).
Proof.
  assert (count is_probe_run
            (trace (log [probe_event video_file] (with_dir output_dir w)))
          = S (count is_probe_run (trace w))) as Hprobe.
  { rewrite trace_log, count_app, count_with_dir, count_one by done.
    simpl. lia. }
  rewrite extract_frames_fallback_eq. cbv zeta.
  destruct (float_stdout _ _); [|exact Hprobe].
  destruct (Z.abs frame_count <? float_limit)%Z; [|exact Hprobe].
  destruct (frame_count =? 0)%Z; [exact Hprobe|].
  unfold snd. rewrite trace_log, count_app, Hprobe.
  match goal with
  | |- (_ + count _ ?frames)%nat = _ =>
      assert (count is_probe_run frames = 0%nat) as ->; [|lia]
  end.
  apply count_none. unfold fallback_timestamps. rewrite zip_with_timestamps.
  apply Forall_map, Forall_forall. intros i _.
  unfold fallback_event. by destruct (silent || info).
Qed.

End Through.

(** A traversal without [-P] of a folder that can be listed, whose videos
    all have a numeric probe, under a count other than 0 that converts to a
    float, returns normally whatever exit statuses ffmpeg gives. *)
Theorem numeric_probes_complete (E : env) (folder : string)
    (recursive silent info : bool) (frame_count time_interval : Z)
    (same_dir : bool) (width height : Z) (paths : list string) (w : world) :
  frame_count <> 0%Z -> converts frame_count ->
  visited E folder recursive = Some paths ->
  (forall path, path ∈ paths ->
     Str.endswith_any path video_extensions = true ->
     exists d, float_stdout E (ffprobe_command path) = Some d) ->
  fst (process_folder E folder recursive silent info frame_count
         time_interval false same_dir width height w) = Ok tt.
Proof.
  intros Hn Hfits Hvisit Hprobes. rewrite process_folder_visited, Hvisit.
  apply for_each_ok. intros path Hpath w1.
  destruct (Str.endswith_any path video_extensions) eqn:Hext.
  - destruct (process_file_unprompted E path silent info frame_count
                time_interval same_dir width height w1 Hext) as (out & ->).
    destruct (Hprobes path Hpath Hext) as (d & Hd).
    by apply (extract_frames_returns E _ _ _ _ _ _ _ _ _ d).
  - unfold process_file. by rewrite Hext.
Qed.

Lemma numeric_probes_complete_witness :
  (16 <> 0)%Z /\ converts 16
  /\ visited Demo.failing "." false = Some ["./a.mp4"; "./b.mp4"]
  /\ fst (process_folder Demo.failing "." false false false 16 0 false false
            0 0 Demo.w0) = Ok tt.
Proof.
  split; [done|]. split; [by vm_compute|]. split; [done|].
  apply (numeric_probes_complete Demo.failing "." false false false 16 0 false
           0 0 ["./a.mp4"; "./b.mp4"] Demo.w0);
    [done | by vm_compute | done |].
  intros path _ _. by exists Demo.ten.
Defined.

(** Under a positive interval, a fast command that exits with status 0 is
    all that happens after the folder has been seen to: the duration is not
    probed and the count is not used at all (a count of 0 does no harm
    here). *)
Theorem interval_fast_path (E : env) (video_file output_dir : string)
    (frame_count time_interval : Z) (silent info : bool) (width height : Z)
    (w : world) :
  (0 < time_interval)%Z ->
  returncode E
    (fast_command video_file output_dir
       (("fps=1/" +:+ Str.fmt_int time_interval) +:+ scale_args width height))
    = 0%Z ->
  let cmd :=
    fast_command video_file output_dir
      (("fps=1/" +:+ Str.fmt_int time_interval) +:+ scale_args width height) in
  extract_frames E video_file output_dir frame_count time_interval silent info
    width height w
  = (Ok tt, log [fast_event silent info cmd] (with_dir output_dir w)).
Proof.
  intros Ht Hrc cmd.
  assert (fast_sampling E video_file frame_count time_interval
            (with_dir output_dir w)
          = (Ok ("fps=1/" +:+ Str.fmt_int time_interval), with_dir output_dir w))
    as Hs.
  { rewrite fast_sampling_eq. by rewrite (proj2 (Z.ltb_lt 0 time_interval) Ht). }
  pose proof (extract_frames_eq E video_file output_dir frame_count
                time_interval silent info width height w _ _ Hs) as Heq.
  cbv zeta in Heq. rewrite Heq, Hrc. done.
Qed.

Lemma interval_fast_path_witness :
  (0 < 5)%Z
  /\ extract_frames Demo.healthy "./a.mp4" "./a_frames" 0 5 false false 0 0
       Demo.w0
     = (Ok tt,
        log [fast_event false false
               (fast_command "./a.mp4" "./a_frames"
                  (("fps=1/" +:+ Str.fmt_int 5) +:+ scale_args 0 0))]
          (with_dir "./a_frames" Demo.w0)).
Proof.
  split; [lia|].
  apply (interval_fast_path Demo.healthy "./a.mp4" "./a_frames" 0 5 false false
           0 0 Demo.w0); [lia | done].
Defined.

(** How often the duration is probed for one file.  Under a positive
    interval: not at all when the fast command succeeds, once (by the
    fallback) when it fails.  Under the count policy, with a numeric probe
    and a count other than 0 that converts to a float: once when the fast
    command succeeds, twice when it fails, the fallback asking again. *)
Theorem probes_per_file (E : env) (video_file output_dir : string)
    (frame_count time_interval : Z) (silent info : bool) (width height : Z)
    (w : world) :
  let run :=
    extract_frames E video_file output_dir frame_count time_interval silent
      info width height w in
  let probes := count is_probe_run (trace (snd run)) in
  let before := count is_probe_run (trace w) in
  ((0 < time_interval)%Z ->
   probes =
     (before +
      if (returncode E
            (fast_command video_file output_dir
               (("fps=1/" +:+ Str.fmt_int time_interval)
                +:+ scale_args width height)) =? 0)%Z
      then 0 else 1)%nat)
  /\ (forall d,
        (time_interval <= 0)%Z ->
        float_stdout E (ffprobe_command video_file) = Some d ->
        frame_count <> 0%Z -> converts frame_count ->
        probes =
          (before +
           if (returncode E
                 (fast_command video_file output_dir
                    (("fps=1/" +:+
                      repr_float E (PrimFloat.div d (to_float frame_count)))
                     +:+ scale_args width height)) =? 0)%Z
           then 1 else 2)%nat).
Proof.
  intros run probes before. split.
  - intros Ht.
    assert (fast_sampling E video_file frame_count time_interval
              (with_dir output_dir w)
            = (Ok ("fps=1/" +:+ Str.fmt_int time_interval),
               with_dir output_dir w)) as Hs.
    { rewrite fast_sampling_eq.
      by rewrite (proj2 (Z.ltb_lt 0 time_interval) Ht). }
    pose proof (extract_frames_eq E video_file output_dir frame_count
                  time_interval silent info width height w _ _ Hs) as Heq.
    cbv zeta in Heq. unfold probes, run. rewrite Heq.
    destruct (_ =? 0)%Z.
    + unfold snd. rewrite trace_log, count_app, count_with_dir by done.
      rewrite count_one.
      replace (is_probe_run (fast_event silent info _)) with false
        by (by destruct silent, info).
      unfold before. lia.
    + rewrite fallback_probes_once.
      rewrite !trace_log, !count_app, count_with_dir, count_notice by done.
      rewrite count_one.
      replace (is_probe_run (fast_event silent info _)) with false
        by (by destruct silent, info).
      unfold before. lia.
  - intros d Ht Hd Hn Hfits.
    assert (fast_sampling E video_file frame_count time_interval
              (with_dir output_dir w)
            = (Ok ("fps=1/" +:+
                   repr_float E (PrimFloat.div d (to_float frame_count))),
               log [probe_event video_file] (with_dir output_dir w))) as Hs.
    { rewrite fast_sampling_eq, (proj2 (Z.ltb_ge 0 time_interval) Ht).
      cbv zeta.
      by rewrite Hd, (converts_ltb _ Hfits), (proj2 (Z.eqb_neq _ 0) Hn). }
    pose proof (extract_frames_eq E video_file output_dir frame_count
                  time_interval silent info width height w _ _ Hs) as Heq.
    cbv zeta in Heq. unfold probes, run. rewrite Heq.
    destruct (_ =? 0)%Z.
    + unfold snd. rewrite !trace_log, !count_app, count_with_dir by done.
      rewrite !count_one.
      replace (is_probe_run (fast_event silent info _)) with false
        by (by destruct silent, info).
      unfold before. simpl. lia.
    + rewrite fallback_probes_once.
      rewrite !trace_log, !count_app, count_with_dir, count_notice by done.
      rewrite !count_one.
      replace (is_probe_run (fast_event silent info _)) with false
        by (by destruct silent, info).
      unfold before. simpl. lia.
Qed.

Lemma probes_per_file_witness :
  (0 <= 0)%Z /\ (16 <> 0)%Z /\ converts 16
  /\ count is_probe_run
       (trace (snd (extract_frames Demo.failing "./a.mp4" "./a_frames" 16 0
                      false false 0 0 Demo.w0))) = 2%nat.
Proof.
  split; [lia|]. split; [done|]. split; [by vm_compute|].
  destruct (probes_per_file Demo.failing "./a.mp4" "./a_frames" 16 0
              false false 0 0 Demo.w0) as [_ Hcount].
  rewrite (Hcount Demo.ten); [done | lia | done | done | by vm_compute].
Defined.

(** A negative count that converts to a float: the fallback makes sure of
    the folder, probes the duration, starts no ffmpeg at all and returns
    normally. *)
Theorem negative_count_fallback (E : env) (video_file output_dir : string)
    (frame_count : Z) (silent info : bool) (width height : Z) (d : float)
    (w : world) :
  (frame_count < 0)%Z -> converts frame_count ->
  float_stdout E (ffprobe_command video_file) = Some d ->
  extract_frames_fallback E video_file output_dir frame_count silent info
    width height w
  = (Ok tt, log [probe_event video_file] (with_dir output_dir w)).
Proof.
  intros Hn Hfits Hd. rewrite extract_frames_fallback_eq, Hd. cbv zeta.
  rewrite (converts_ltb _ Hfits), (proj2 (Z.eqb_neq frame_count 0)) by lia.
  unfold range. rewrite Z2Nat.nonpos by lia. simpl. by rewrite log_nil.
Qed.

Lemma negative_count_fallback_witness :
  (-3 < 0)%Z /\ converts (-3)
  /\ float_stdout Demo.healthy (ffprobe_command "./a.mp4") = Some Demo.ten
  /\ extract_frames_fallback Demo.healthy "./a.mp4" "./a_frames" (-3)
       false false 0 0 Demo.w0
     = (Ok tt, log [probe_event "./a.mp4"] (with_dir "./a_frames" Demo.w0)).
Proof.
  split; [lia|]. split; [by vm_compute|]. split; [done|].
  apply (negative_count_fallback Demo.healthy "./a.mp4" "./a_frames" (-3)
           false false 0 0 Demo.ten Demo.w0); [lia | by vm_compute | done].
Defined.

(** Processing the same video again, in subfolder mode, never reuses the
    folder of the first pass: the folder of the first pass exists
    afterwards, and the second pass takes one that does not. *)
Theorem rerun_takes_new_folder (E : env) (video_file : string)
    (silent info : bool) (frame_count time_interval : Z) (width height : Z)
    (w : world) :
  Str.endswith_any video_file video_extensions = true ->
  let pass := fun w0 =>
    process_file E video_file silent info frame_count time_interval false
      false width height w0 in
  let w1 := snd (pass w) in
  exists first second,
    pass w = extract_frames E video_file first frame_count time_interval
               silent info width height (log (progress silent info video_file) w)
    /\ pass w1 = extract_frames E video_file second frame_count time_interval
                   silent info width height
                   (log (progress silent info video_file) w1)
    /\ (first ∈ fs w1) /\ (second ∉ fs w1) /\ first <> second.
Proof.
  intros Hext pass w1.
  destruct (process_file_subfolder E video_file silent info frame_count
              time_interval width height w Hext) as (first & _ & Hfirst).
  destruct (process_file_subfolder E video_file silent info frame_count
              time_interval width height w1 Hext) as (second & Hfree & Hsecond).
  assert (first ∈ fs w1) as Hin.
  { unfold w1, pass. rewrite Hfirst. apply extract_frames_has_dir. }
  exists first, second. repeat split; [done | done | done | done |].
  intros ->. by apply Hfree.
Qed.

Lemma rerun_takes_new_folder_witness :
  Str.endswith_any "./a.mp4" video_extensions = true
  /\ exists first second : string, first <> second.
Proof.
  split; [done|].
  destruct (rerun_takes_new_folder Demo.healthy "./a.mp4" false false 16 0 0 0
              Demo.w0) as (first & second & _ & _ & _ & _ & Hne); [done|].
  by exists first, second.
Defined.

(** ** The files of the fallback *)

Section FrameFiles.

Lemma pretty_N_go_head (x : N) (s : string) :
  (0 < x)%N ->
  exists c r, pretty_N_go x s = String c r /\ c <> "0"%char.
Proof.
  revert s. induction (N.lt_wf_0 x) as [x _ IH]. intros s Hx.
  rewrite pretty_N_go_step by done.
  destruct (decide (x < 10)%N) as [Hsmall|Hbig].
  - rewrite N.div_small, pretty_N_go_0, N.mod_small by done.
    exists (pretty_N_char x), s. split; [done|].
    assert (x = 1 \/ x = 2 \/ x = 3 \/ x = 4 \/ x = 5 \/ x = 6 \/ x = 7
            \/ x = 8 \/ x = 9)%N as Hx9 by lia.
    destruct Hx9 as [->|[->|[->|[->|[->|[->|[->|[->| ->]]]]]]]]; done.
  - apply IH; [apply N.div_lt; lia | apply N.div_str_pos; lia].
Qed.

Lemma pretty_pos_head (z : Z) :
  (0 < z)%Z -> exists c r, pretty z = String c r /\ c <> "0"%char.
Proof.
  intros Hz. destruct z as [|p|p]; [lia| |lia].
  cbv [pretty pretty_Z pretty_positive pretty_N].
  destruct (decide (N.pos p = 0%N)); [done|].
  by apply pretty_N_go_head.
Qed.

Lemma zeros_cancel (a b : nat) (s t : string) c1 r1 c2 r2 :
  s = String c1 r1 -> c1 <> "0"%char ->
  t = String c2 r2 -> c2 <> "0"%char ->
  Str.zeros a +:+ s = Str.zeros b +:+ t -> s = t.
Proof.
  intros -> Hc1 -> Hc2. revert b.
  induction a as [|a IH]; intros [|b]; simpl; intros Heq.
  - done.
  - injection Heq as -> _. done.
  - injection Heq as <- _. done.
  - injection Heq as Heq. by apply (IH b).
Qed.

Lemma fmt_03d_inj (x y : Z) :
  (0 < x)%Z -> (0 < y)%Z -> Str.fmt_03d x = Str.fmt_03d y -> x = y.
Proof.
  intros Hx Hy. unfold Str.fmt_03d.
  rewrite (proj2 (Z.ltb_ge x 0)), (proj2 (Z.ltb_ge y 0)) by lia.
  destruct (pretty_pos_head x Hx) as (c1 & r1 & Hpx & Hc1).
  destruct (pretty_pos_head y Hy) as (c2 & r2 & Hpy & Hc2).
  intros Heq. apply (zeros_cancel _ _ _ _ c1 r1 c2 r2) in Heq; try done.
  by apply pretty_Z_inj in Heq.
Qed.

Lemma append_inj_r (s t u : string) : s +:+ u = t +:+ u -> s = t.
Proof.
  revert t. induction s as [|a s IH]; intros [|b t] Heq.
  - done.
  - apply (f_equal String.length) in Heq.
    rewrite !length_append in Heq. simpl in Heq. lia.
  - apply (f_equal String.length) in Heq.
    rewrite !length_append in Heq. simpl in Heq. lia.
  - simpl in Heq. injection Heq as -> Heq. f_equal. by apply IH.
Qed.

(** Two names with a common first part are joined to the same path only
    when they are the same name. *)
Lemma join_cancel (output_dir base : string) (c : ascii) (x y : string) :
  os_path.join output_dir (base +:+ String c x)
  = os_path.join output_dir (base +:+ String c y) ->
  x = y.
Proof.
  assert (Str.startswith (base +:+ String c x) "/"
          = Str.startswith (base +:+ String c y) "/") as Hsame.
  { unfold Str.startswith. destruct base as [|b base].
    - change ("" +:+ String c x) with (String c x).
      change ("" +:+ String c y) with (String c y).
      by rewrite !prefix_cons, !prefix_empty.
    - change (String b base +:+ String c x)
        with (String b (base +:+ String c x)).
      change (String b base +:+ String c y)
        with (String b (base +:+ String c y)).
      by rewrite !prefix_cons, !prefix_empty. }
  unfold os_path.join. rewrite Hsame.
  destruct (Str.startswith (base +:+ String c y) "/"); intros Heq.
  - apply String.app_inj in Heq. by injection Heq.
  - destruct (String.eqb output_dir "" || Str.endswith output_dir "/").
    + apply String.app_inj, String.app_inj in Heq. by injection Heq.
    + apply String.app_inj, (String.app_inj "/"), String.app_inj in Heq.
      by injection Heq.
Qed.

End FrameFiles.

(** The fallback writes every frame to a file of its own: the file of index
    [i] is [<output_dir>/<stem>_<i+1, three digits at least>.jpg], and two
    different indices of the loop never share a file, whatever the
    timestamps and sizes. *)
Theorem frame_files_distinct (E : env) (video_file output_dir : string)
    (width height : Z) (i j : Z) (ti tj : float) :
  (0 <= i)%Z -> (0 <= j)%Z ->
  fallback_command E video_file output_dir width height i ti !! 9%nat
  = Some (os_path.join output_dir
            (base_name_of video_file +:+ "_" +:+ Str.fmt_03d (i + 1) +:+ ".jpg"))
  /\ (fallback_command E video_file output_dir width height i ti !! 9%nat
      = fallback_command E video_file output_dir width height j tj !! 9%nat ->
      i = j).
Proof.
  intros Hi Hj. split; [done|].
  unfold fallback_command. cbv zeta. simpl. intros Heq. injection Heq as Heq.
  change (base_name_of video_file +:+ "_" +:+ Str.fmt_03d (i + 1) +:+ ".jpg")
    with (base_name_of video_file
          +:+ String "_" (Str.fmt_03d (i + 1) +:+ ".jpg")) in Heq.
  change (base_name_of video_file +:+ "_" +:+ Str.fmt_03d (j + 1) +:+ ".jpg")
    with (base_name_of video_file
          +:+ String "_" (Str.fmt_03d (j + 1) +:+ ".jpg")) in Heq.
  apply join_cancel, append_inj_r, fmt_03d_inj in Heq; lia.
Qed.

Lemma frame_files_distinct_witness :
  (0 <= 0)%Z /\ (0 <= 999)%Z
  /\ fallback_command Demo.healthy "./a.mp4" "./a_frames" 0 0 999 Demo.ten
       !! 9%nat = Some "./a_frames/a_1000.jpg".
Proof.
  split; [lia|]. split; [lia|].
  destruct (frame_files_distinct Demo.healthy "./a.mp4" "./a_frames" 0 0
              999 0 Demo.ten Demo.ten) as [Hfile _]; [lia | lia |].
  rewrite Hfile. by vm_compute.
Defined.
